(** * chatkit-agent: the panel controller and the quiz endpoint

    A shallow embedding of
      - [ChatKitPanel] (second document of [src/next.config.ts]): error
        state, credential acquisition, widget actions, client tools;
      - [extractErrorDetail] (same file);
      - the quiz [POST] handler ([src/app/api/quiz/submit/route.ts]).

    JavaScript values are an inductive type, objects are association lists
    in [Object.entries] order, and the asynchronous handlers are written in
    a small state-and-exception monad over the panel's state. *)

From Stdlib Require Import ZArith String Ascii List Bool Lia DecimalString.
From stdpp Require Import base option list gmap strings.

Set Warnings "-register-all".

Local Open Scope string_scope.
Local Open Scope Z_scope.

(** ** Text: the string operations the source uses

    A string is the UTF-8 byte sequence of a well-formed text. *)

Module Text.

Definition code (c : ascii) : N := N_of_ascii c.

(** [String.prototype.startsWith]. *)
Definition startsWith (s p : string) : bool := String.prefix p s.

(** [s] without its first [n] bytes. *)
Fixpoint drop_chars (n : nat) (s : string) : string :=
  match n, s with
  | O, _ => s
  | S n', String _ rest => drop_chars n' rest
  | S _, EmptyString => EmptyString
  end.

(** [s.replace(/^p/, "")] for a literal [p]. *)
Definition strip_prefix (p s : string) : string :=
  if startsWith s p then drop_chars (String.length p) s else s.

(** The class [\w] (without the unicode flag): [A-Za-z0-9_]. *)
Definition is_word (c : ascii) : bool :=
  let n := code c in
  ((48 <=? n) && (n <=? 57) || (65 <=? n) && (n <=? 90)
   || (97 <=? n) && (n <=? 122) || (n =? 95))%N.

(** [c.toUpperCase()] for a one-character string [c] matched by [\w]. *)
Definition toUpperCase (c : ascii) : ascii :=
  let n := code c in
  if ((97 <=? n) && (n <=? 122))%N then ascii_of_N (n - 32) else c.

(** [s.replace(/[-_]/g, " ")]. *)
Fixpoint replace_separators (s : string) : string :=
  match s with
  | EmptyString => EmptyString
  | String c rest =>
      String (if ((code c =? 45) || (code c =? 95))%N then " "%char else c)
             (replace_separators rest)
  end.

(** [s.replace(/\b\w/g, c => c.toUpperCase())]: a word character matches
    when the character before it (of the input) is not one;
    [after_word] says whether it is. *)
Fixpoint capitalize_words (after_word : bool) (s : string) : string :=
  match s with
  | EmptyString => EmptyString
  | String c rest =>
      String (if is_word c && negb after_word then toUpperCase c else c)
             (capitalize_words (is_word c) rest)
  end.

(** White space, the class [\s], which is also what [trim] strips:
    U+0009..U+000D and U+0020 in one byte, U+00A0 in two, and U+1680,
    U+2000..U+200A, U+2028, U+2029, U+202F, U+205F, U+3000, U+FEFF in three. *)
Definition space1 (a : N) : bool :=
  ((9 <=? a) && (a <=? 13) || (a =? 32))%N.

Definition space2 (a b : N) : bool :=
  ((a =? 194) && (b =? 160))%N.

Definition space3 (a b c : N) : bool :=
  ((a =? 225) && (b =? 154) && (c =? 128)
   || (a =? 226) && (b =? 128)
      && ((128 <=? c) && (c <=? 138) || (c =? 168) || (c =? 169) || (c =? 175))
   || (a =? 226) && (b =? 129) && (c =? 159)
   || (a =? 227) && (b =? 128) && (c =? 128)
   || (a =? 239) && (b =? 187) && (c =? 191))%N.

(** The number of bytes of the white space character [s] starts with,
    [0] when it starts with none. *)
Definition space_width (s : string) : nat :=
  match s with
  | String a (String b (String c _)) =>
      if space1 (code a) then 1
      else if space2 (code a) (code b) then 2
      else if space3 (code a) (code b) (code c) then 3 else 0
  | String a (String b _) =>
      if space1 (code a) then 1
      else if space2 (code a) (code b) then 2 else 0
  | String a _ => if space1 (code a) then 1 else 0
  | EmptyString => 0
  end%nat.

(** [s.replace(/\s+/g, " ")]: [skip] bytes of the current white space
    character are still to be dropped, [in_run] says that the run it
    belongs to has its space already. *)
Fixpoint collapse_from (skip : nat) (in_run : bool) (s : string) : string :=
  match s with
  | EmptyString => EmptyString
  | String c rest =>
      match skip with
      | S k => collapse_from k in_run rest
      | O =>
          match space_width s with
          | O => String c (collapse_from O false rest)
          | S k =>
              if in_run then collapse_from k true rest
              else String " "%char (collapse_from k true rest)
          end
      end
  end.

Definition collapse_spaces (s : string) : string := collapse_from 0 false s.

(** [trimStart] and [trimEnd], of which [trim] is the composition. *)
Fixpoint trimStart_from (skip : nat) (s : string) : string :=
  match s with
  | EmptyString => EmptyString
  | String c rest =>
      match skip with
      | S k => trimStart_from k rest
      | O =>
          match space_width s with
          | O => s
          | S k => trimStart_from k rest
          end
      end
  end.

Definition trimStart (s : string) : string := trimStart_from 0 s.

Fixpoint trimEnd (s : string) : string :=
  match s with
  | EmptyString => EmptyString
  | String c rest =>
      if String.eqb (trimStart s) "" then "" else String c (trimEnd rest)
  end.

Definition trim (s : string) : string := trimEnd (trimStart s).

(** [sub] occurs in [s]. *)
Definition contains (s sub : string) : Prop :=
  exists before after, s = before ++ sub ++ after.

(** The character U+0022. *)
Definition dquote : string := String "034"%char "".

End Text.

Import Text.

(** ** JavaScript values *)

Module Js.

(** Numbers are modelled on the integers (decimal rendering, [0] falsy). *)
Inductive value : Type :=
| VUndefined
| VNull
| VBool (b : bool)
| VNum (n : Z)
| VStr (s : string)
| VArr (items : list value)
| VObj (entries : list (string * value)).

(** Own property lookup in an entry list. *)
Fixpoint lookup_entry (k : string) (entries : list (string * value)) : option value :=
  match entries with
  | [] => None
  | (k', v) :: rest => if String.eqb k k' then Some v else lookup_entry k rest
  end.

(** [v?.k] for a property name [k] that no prototype defines: every use in
    the source reads one of [error], [message], [details], [type],
    [payload], [form], [quizId], [answer], [id], [client_secret], [theme],
    [fact_id], [fact_text], [q1] .. [q8]. *)
Definition get (v : value) (k : string) : value :=
  match v with
  | VObj entries => default VUndefined (lookup_entry k entries)
  | _ => VUndefined
  end.

(** [k in v] for an object or array [v] and such a name [k]. *)
Definition has (v : value) (k : string) : bool :=
  match v with
  | VObj entries =>
      match lookup_entry k entries with
      | Some _ => true
      | None => false
      end
  | _ => false
  end.

(** ToBoolean. *)
Definition truthy (v : value) : bool :=
  match v with
  | VUndefined | VNull => false
  | VBool b => b
  | VNum n => negb (n =? 0)
  | VStr s => negb (String.eqb s "")
  | VArr _ | VObj _ => true
  end.

(** [typeof v === "string"]. *)
Definition is_string (v : value) : bool :=
  match v with VStr _ => true | _ => false end.

(** [typeof v === "object"] (which [null] satisfies too). *)
Definition is_object (v : value) : bool :=
  match v with VNull | VArr _ | VObj _ => true | _ => false end.

(** [a ?? b]. *)
Definition nullish (a b : value) : value :=
  match a with VUndefined | VNull => b | _ => a end.

Definition Z_to_string (n : Z) : string :=
  NilEmpty.string_of_int (Z.to_int n).

(** [String(v)], also the conversion a template literal applies. *)
Fixpoint to_string (v : value) : string :=
  match v with
  | VUndefined => "undefined"
  | VNull => "null"
  | VBool true => "true"
  | VBool false => "false"
  | VNum n => Z_to_string n
  | VStr s => s
  | VArr items =>
      String.concat ","
        (map (fun x => match x with
                       | VUndefined | VNull => ""
                       | _ => to_string x
                       end) items)
  | VObj _ => "[object Object]"
  end.

(** The string carried by a value of type string. *)
Definition as_string (v : value) : option string :=
  match v with VStr s => Some s | _ => None end.

End Js.

Import Js.

(** ** [extractErrorDetail] *)

Module ErrorDetail.

(** A [return] inside the [details] block is [Some], falling out of the
    block is [None]. *)
Definition extractErrorDetail (payload : value) (fallback : string) : string :=
  if negb (truthy payload) then fallback
  else
    let error := get payload "error" in
    if is_string error then to_string error
    else if truthy error && is_object error && has error "message"
            && is_string (get error "message")
    then to_string (get error "message")
    else
      let details := get payload "details" in
      if is_string details then to_string details
      else
        match (if truthy details && is_object details && has details "error" then
                 let nestedError := get details "error" in
                 if is_string nestedError then Some (to_string nestedError)
                 else if truthy nestedError && is_object nestedError
                         && has nestedError "message"
                         && is_string (get nestedError "message")
                 then Some (to_string (get nestedError "message"))
                 else None
               else None) with
        | Some s => s
        | None =>
            if is_string (get payload "message") then to_string (get payload "message")
            else fallback
        end.

(** The precedence order as the specification words it: an ordered list of
    extraction rules, evaluated first-match. *)
Definition extraction_rules : list (value -> option string) :=
  [ (fun p => as_string (get p "error"));
    (fun p => as_string (get (get p "error") "message"));
    (fun p => as_string (get p "details"));
    (fun p => as_string (get (get p "details") "error"));
    (fun p => as_string (get (get (get p "details") "error") "message"));
    (fun p => as_string (get p "message")) ].

Fixpoint first_match (rules : list (value -> option string))
    (payload : value) (fallback : string) : string :=
  match rules with
  | [] => fallback
  | rule :: rest =>
      match rule payload with
      | Some s => s
      | None => first_match rest payload fallback
      end
  end.

End ErrorDetail.

(** ** The panel controller, [ChatKitPanel] *)

Module Panel.

(** *** Data *)

Record ErrorState : Type := mkErrorState {
  script : option string;
  session : option string;
  integration : option string;
  retryable : bool
}.

Definition createInitialErrors : ErrorState :=
  {| script := None; session := None; integration := None; retryable := false |}.

(** [Partial<ErrorState>]: [None] is a key the update leaves out. *)
Record ErrorUpdates : Type := mkErrorUpdates {
  set_script : option (option string);
  set_session : option (option string);
  set_integration : option (option string);
  set_retryable : option bool
}.

(** [{ ...current, ...updates }]. *)
Definition merge (current : ErrorState) (updates : ErrorUpdates) : ErrorState :=
  {| script := default (script current) (set_script updates);
     session := default (session current) (set_session updates);
     integration := default (integration current) (set_integration updates);
     retryable := default (retryable current) (set_retryable updates) |}.

Inductive ScriptStatus : Type := pending | ready | failed.

(** The argument of [onWidgetAction] (its [type] is always ["save"]). *)
Record FactAction : Type := mkFactAction {
  factId : string;
  factText : string
}.

(** The argument of [el.sendUserMessage]. *)
Record message : Type := mkMessage {
  text : string;
  reply : value
}.

(** The arguments of [fetch]; [body] is the value given to
    [JSON.stringify]. *)
Record request : Type := mkRequest {
  url : string;
  method : string;
  body : value
}.

(** What a [throw] or a rejected promise carries: an [Error] with its
    message, or any other value. *)
Inductive exn : Type :=
| Error (msg : string)
| Thrown (v : value).

Inductive outcome (A : Type) : Type :=
| Ok (a : A)
| Throw (e : exn).
Arguments Ok {A} a.
Arguments Throw {A} e.

(** A [Response]: [raw] is what [response.text()] settles to. *)
Record response : Type := mkResponse {
  status : Z;
  statusText : string;
  raw : outcome string
}.

(** [response.ok]. *)
Definition ok (r : response) : bool := (200 <=? status r) && (status r <=? 299).

(** What leaves the panel, in order. *)
Inductive effect : Type :=
| Fetch (r : request)
| SendUserMessage (m : message)
| WidgetAction (a : FactAction)
| ThemeRequest (scheme : string)
| ResponseEnd.

(** [kitRef.current]: [null], or an element that has a [sendUserMessage]
    method or has none. *)
Inductive kit : Type :=
| KitNull
| KitElement (hasSendUserMessage : bool).

(** The component's state, its refs, and the trace of its effects. *)
Record state : Type := mkState {
  processedFacts : gset string;
  errors : ErrorState;
  isInitializingSession : bool;
  isMounted : bool;
  scriptStatus : ScriptStatus;
  widgetInstanceKey : Z;
  kitRef : kit;
  trace : list effect
}.

(** What the panel runs in: the constants of [@/lib/config], the platform
    and the collaborators. *)
Record world : Type := mkWorld {
  WORKFLOW_ID : option string;
  CREATE_SESSION_ENDPOINT : string;
  isBrowser : bool;
  customElementDefined : bool;
  JSON_parse : string -> option value;
  fetch : request -> outcome response;
  sendUserMessage : message -> option exn
}.

(** *** The monad of the handlers: state, and a thrown exception *)

Definition M (A : Type) : Type := world -> state -> outcome A * state.

Definition ret {A} (a : A) : M A := fun _ st => (Ok a, st).

Definition bind {A B} (m : M A) (k : A -> M B) : M B :=
  fun w st =>
    match m w st with
    | (Ok a, st') => k a w st'
    | (Throw e, st') => (Throw e, st')
    end.

Definition throw {A} (e : exn) : M A := fun _ st => (Throw e, st).

(** [try { m } catch (e) { handler e }]. *)
Definition try_catch {A} (m : M A) (handler : exn -> M A) : M A :=
  fun w st =>
    match m w st with
    | (Ok a, st') => (Ok a, st')
    | (Throw e, st') => handler e w st'
    end.

(** [try { m } finally { cleanup }]. *)
Definition finally {A} (m : M A) (cleanup : M unit) : M A :=
  fun w st =>
    let '(r, st') := m w st in
    match cleanup w st' with
    | (Ok _, st'') => (r, st'')
    | (Throw e, st'') => (Throw e, st'')
    end.

Definition gets {A} (f : state -> A) : M A := fun _ st => (Ok (f st), st).
Definition asks {A} (f : world -> A) : M A := fun w st => (Ok (f w), st).
Definition modify (f : state -> state) : M unit := fun _ st => (Ok tt, f st).
Definition when (b : bool) (m : M unit) : M unit := if b then m else ret tt.

Notation "'let*' x ':=' m 'in' k" := (bind m (fun x => k))
  (at level 10, x name, m at level 100, k at level 200).
Notation "m ';;' k" := (bind m (fun _ => k))
  (at level 100, k at level 200, right associativity).

(** *** State updates *)

Definition with_errors (f : ErrorState -> ErrorState) (st : state) : state :=
  mkState (processedFacts st) (f (errors st)) (isInitializingSession st)
    (isMounted st) (scriptStatus st) (widgetInstanceKey st) (kitRef st) (trace st).

Definition with_isInitializingSession (b : bool) (st : state) : state :=
  mkState (processedFacts st) (errors st) b
    (isMounted st) (scriptStatus st) (widgetInstanceKey st) (kitRef st) (trace st).

Definition with_processedFacts (f : gset string -> gset string) (st : state) : state :=
  mkState (f (processedFacts st)) (errors st) (isInitializingSession st)
    (isMounted st) (scriptStatus st) (widgetInstanceKey st) (kitRef st) (trace st).

Definition with_isMounted (b : bool) (st : state) : state :=
  mkState (processedFacts st) (errors st) (isInitializingSession st)
    b (scriptStatus st) (widgetInstanceKey st) (kitRef st) (trace st).

Definition with_scriptStatus (s : ScriptStatus) (st : state) : state :=
  mkState (processedFacts st) (errors st) (isInitializingSession st)
    (isMounted st) s (widgetInstanceKey st) (kitRef st) (trace st).

Definition with_widgetInstanceKey (f : Z -> Z) (st : state) : state :=
  mkState (processedFacts st) (errors st) (isInitializingSession st)
    (isMounted st) (scriptStatus st) (f (widgetInstanceKey st)) (kitRef st) (trace st).

Definition with_kitRef (k : kit) (st : state) : state :=
  mkState (processedFacts st) (errors st) (isInitializingSession st)
    (isMounted st) (scriptStatus st) (widgetInstanceKey st) k (trace st).

Definition with_effect (e : effect) (st : state) : state :=
  mkState (processedFacts st) (errors st) (isInitializingSession st)
    (isMounted st) (scriptStatus st) (widgetInstanceKey st) (kitRef st)
    (trace st ++ [e]).

Definition emit (e : effect) : M unit := modify (with_effect e).

Definition setErrorState (updates : ErrorUpdates) : M unit :=
  modify (with_errors (fun current => merge current updates)).
Definition setErrors (e : ErrorState) : M unit := modify (with_errors (fun _ => e)).
Definition setIsInitializingSession (b : bool) : M unit :=
  modify (with_isInitializingSession b).
Definition setScriptStatus (s : ScriptStatus) : M unit := modify (with_scriptStatus s).
Definition setWidgetInstanceKey (f : Z -> Z) : M unit :=
  modify (with_widgetInstanceKey f).

(** [await fetch(...)]: the call is traced, its result is the world's. *)
Definition do_fetch (r : request) : M response :=
  emit (Fetch r);;
  let* res := asks (fun w => fetch w r) in
  match res with
  | Ok resp => ret resp
  | Throw e => throw e
  end.

(** [await el.sendUserMessage(m)]: traced when it resolves. *)
Definition do_sendUserMessage (m : message) : M unit :=
  let* res := asks (fun w => sendUserMessage w m) in
  match res with
  | None => emit (SendUserMessage m)
  | Some e => throw e
  end.

(** [el?.sendUserMessage], as a condition. *)
Definition can_send (el : kit) : bool :=
  match el with
  | KitElement b => b
  | KitNull => false
  end.

(** The state a first render creates. *)
Definition initial (w : world) : state :=
  {| processedFacts := ∅;
     errors := createInitialErrors;
     isInitializingSession := true;
     isMounted := true;
     scriptStatus := if isBrowser w && customElementDefined w then ready else pending;
     widgetInstanceKey := 0;
     kitRef := KitNull;
     trace := [] |}.

(** *** Script readiness *)

Definition handleLoaded : M unit :=
  let* mounted := gets isMounted in
  if negb mounted then ret tt
  else
    setScriptStatus ready;;
    setErrorState (mkErrorUpdates (Some None) None None None).

(** [detail] is [event?.detail]. *)
Definition handleError (detail : value) : M unit :=
  let* mounted := gets isMounted in
  if negb mounted then ret tt
  else
    setScriptStatus failed;;
    let detail := nullish detail (VStr "unknown error") in
    setErrorState
      (mkErrorUpdates (Some (Some ("Error: " ++ to_string detail))) None None (Some false));;
    setIsInitializingSession false.

(** The callback of the 5000 ms timer. *)
Definition scriptTimeout : M unit :=
  let* defined := asks customElementDefined in
  if negb defined then
    handleError
      (VStr "ChatKit web component is unavailable. Verify that the script URL is reachable.")
  else ret tt.

(** The body of the script effect, after the listeners are registered;
    the result says whether the timer was armed. *)
Definition scriptEffect : M bool :=
  let* browser := asks isBrowser in
  if negb browser then ret false
  else
    let* defined := asks customElementDefined in
    if defined then handleLoaded;; ret false
    else
      let* status := gets scriptStatus in
      match status with
      | pending => ret true
      | _ => ret false
      end.

(** The cleanup of the mount effect. *)
Definition unmount : M unit := modify (with_isMounted false).

(** *** Configuration *)

(** [Boolean(WORKFLOW_ID && !WORKFLOW_ID.startsWith("wf_replace"))]. *)
Definition isWorkflowConfigured (w : world) : bool :=
  match WORKFLOW_ID w with
  | Some id => negb (String.eqb id "") && negb (startsWith id "wf_replace")
  | None => false
  end.

Definition configuration_error : string :=
  "Set NEXT_PUBLIC_CHATKIT_WORKFLOW_ID in your .env.local file.".

Definition configEffect : M unit :=
  let* configured := asks isWorkflowConfigured in
  let* mounted := gets isMounted in
  if negb configured && mounted then
    setErrorState (mkErrorUpdates None (Some (Some configuration_error)) None (Some false));;
    setIsInitializingSession false
  else ret tt.

Definition handleResetChat : M unit :=
  modify (with_processedFacts (fun _ => ∅));;
  let* browser := asks isBrowser in
  let* defined := asks customElementDefined in
  when browser (setScriptStatus (if defined then ready else pending));;
  setIsInitializingSession true;;
  setErrors createInitialErrors;;
  setWidgetInstanceKey (fun prev => prev + 1).

(** *** Credential acquisition *)

Definition workflow_value (w : world) : value :=
  match WORKFLOW_ID w with
  | Some id => VStr id
  | None => VUndefined
  end.

Definition session_request (w : world) : request :=
  {| url := CREATE_SESSION_ENDPOINT w;
     method := "POST";
     body := VObj [ ("workflow", VObj [("id", workflow_value w)]);
                    ("chatkit_configuration",
                     VObj [("file_upload", VObj [("enabled", VBool true)])]) ] |}.

(** [data], from the text of the response. *)
Definition parse_body (w : world) (raw : string) : value :=
  if negb (String.eqb raw "") then
    match JSON_parse w raw with
    | Some data => data
    | None => VObj []
    end
  else VObj [].

Definition missing_secret : string := "Missing client secret in response".

Definition getClientSecret (currentSecret : value) : M value :=
  let* configured := asks isWorkflowConfigured in
  if negb configured then
    let detail := configuration_error in
    let* mounted := gets isMounted in
    when mounted
      (setErrorState (mkErrorUpdates None (Some (Some detail)) None (Some false));;
       setIsInitializingSession false);;
    throw (Error detail)
  else
    let* mounted := gets isMounted in
    when mounted
      (when (negb (truthy currentSecret)) (setIsInitializingSession true);;
       setErrorState (mkErrorUpdates None (Some None) (Some None) (Some false)));;
    finally
      (try_catch
        (let* req := asks session_request in
         let* response := do_fetch req in
         let* raw :=
           match raw response with
           | Ok s => ret s
           | Throw e => throw e
           end in
         let* data := asks (fun w => parse_body w raw) in
         if negb (ok response) then
           let detail := ErrorDetail.extractErrorDetail data (statusText response) in
           throw (Error detail)
         else
           let clientSecret := get data "client_secret" in
           if negb (truthy clientSecret) then throw (Error missing_secret)
           else
             let* mounted := gets isMounted in
             when mounted
               (setErrorState (mkErrorUpdates None (Some None) (Some None) None));;
             ret clientSecret)
        (fun error =>
           let detail :=
             match error with
             | Error msg => msg
             | Thrown _ => "Unable to start ChatKit session."
             end in
           let* mounted := gets isMounted in
           when mounted
             (setErrorState (mkErrorUpdates None (Some (Some detail)) None (Some false)));;
           throw (match error with
                  | Error _ => error
                  | Thrown _ => Error detail
                  end)))
      (let* mounted := gets isMounted in
       when (mounted && negb (truthy currentSecret)) (setIsInitializingSession false)).

(** *** Widget actions *)

(** The first argument of [onAction]: a string, or anything else, of which
    [type] is [action?.type] and [payload] is [action?.payload] when it is
    not nullish, a [Record<string, any>] as the source casts it. *)
Inductive action : Type :=
| ActionName (type : string)
| ActionObject (type : value) (payload : option (list (string * value))).

Definition action_type (a : action) : string :=
  match a with
  | ActionName s => s
  | ActionObject t _ => to_string (nullish t (VStr ""))
  end.

Definition action_payload (a : action) : list (string * value) :=
  match a with
  | ActionName _ => []
  | ActionObject _ p => default [] p
  end.

Definition nl : string := String "010"%char "".

Definition quiz_confirmation (answer quizId : value) : string :=
  "Recorded your answer " ++ dquote ++ to_string answer ++ dquote
  ++ " for quiz " ++ dquote ++ to_string quizId ++ dquote ++ ".".

Definition quiz_apology : string := "Sorry — couldn’t save your answer right now.".
Definition survey_apology : string := "Sorry — couldn’t save your survey right now.".

(** [pick], of the survey branch. *)
Definition pick (payload : list (string * value)) (k : string) : value :=
  if has (VObj payload) k then get (VObj payload) k else VNull.

(** [allergies] as first bound: the entries filtered and mapped. *)
Definition allergies_collected (payload : list (string * value)) : list string :=
  map (fun kv => strip_prefix "q4_" (fst kv))
      (List.filter (fun kv => startsWith (fst kv) "q4_" && truthy (snd kv)) payload).

(** [allergies], after the collapse on ["none"]. *)
Definition allergies (payload : list (string * value)) : list string :=
  let collected := allergies_collected payload in
  if existsb (String.eqb "none") collected then ["none"] else collected.

Record Survey : Type := mkSurvey {
  q1 : value; q2 : value; q3 : value;
  q4 : list string;
  q5 : value; q6 : value; q7 : value; q8 : value
}.

Definition survey_of (payload : list (string * value)) : Survey :=
  {| q1 := pick payload "q1";
     q2 := pick payload "q2";
     q3 := pick payload "q3";
     q4 := allergies payload;
     q5 := pick payload "q5";
     q6 := pick payload "q6";
     q7 := pick payload "q7";
     q8 := pick payload "q8" |}.

Definition survey_json (s : Survey) : value :=
  VObj [ ("q1", q1 s); ("q2", q2 s); ("q3", q3 s);
         ("q4", VArr (map VStr (q4 s)));
         ("q5", q5 s); ("q6", q6 s); ("q7", q7 s); ("q8", q8 s) ].

Definition pretty (v : value) : string :=
  match v with
  | VStr s => capitalize_words false (replace_separators s)
  | _ => to_string v
  end.

(** [list], of the survey branch. *)
Definition list_text (arr : list string) : string :=
  match arr with
  | [] => "None"
  | _ => String.concat ", " (map (fun s => pretty (VStr s)) arr)
  end.

Definition summary (survey : Survey) : string :=
  "Survey saved:" ++ nl ++
  "- Skin type: " ++ pretty (q1 survey) ++ nl ++
  "- Primary concern: " ++ pretty (q2 survey) ++ nl ++
  "- Allergies: " ++ list_text (q4 survey) ++ nl ++
  "- Product preference: " ++ pretty (q5 survey) ++ nl ++
  "- Routine: " ++ pretty (q6 survey) ++ nl ++
  "- Sensitivity: " ++ pretty (q7 survey) ++ nl ++
  "- Desired results: " ++ pretty (q8 survey).

(** [quizId] and [answer], as [onAction] binds them. *)
Definition action_form (act : action) (widgetItem : value) : value :=
  nullish (get widgetItem "form")
    (nullish (get (VObj (action_payload act)) "form") (VObj [])).

Definition action_quizId (act : action) (widgetItem : value) : value :=
  nullish (get (VObj (action_payload act)) "quizId")
    (nullish (get widgetItem "quizId") VNull).

Definition action_answer (act : action) (widgetItem : value) : value :=
  nullish (get (VObj (action_payload act)) "answer")
    (nullish (get (action_form act widgetItem) "answer") VNull).

Definition quiz_request (quizId answer : value) : request :=
  mkRequest "/api/quiz/submit" "POST" (VObj [("quizId", quizId); ("answer", answer)]).

Definition onAction (act : action) (widgetItem : value) : M value :=
  let type := action_type act in
  let payload := action_payload act in
  let quizId := action_quizId act widgetItem in
  let answer := action_answer act widgetItem in
  if String.eqb type "question.submit" then
    let* el := gets kitRef in
    try_catch
      (let* res := do_fetch (quiz_request quizId answer) in
       if negb (ok res) then throw (Error ("API " ++ Z_to_string (status res)))
       else
         when (can_send el)
           (do_sendUserMessage
              (mkMessage (quiz_confirmation answer quizId) (get widgetItem "id"))))
      (fun _ =>
         when (can_send el)
           (do_sendUserMessage (mkMessage quiz_apology (get widgetItem "id"))));;
    ret (VObj [("ok", VBool true); ("quizId", quizId); ("answer", answer)])
  else if String.eqb type "skin.survey.submit" then
    let survey := survey_of payload in
    let* el := gets kitRef in
    try_catch
      (let* res := do_fetch (mkRequest "/api/survey/submit" "POST" (survey_json survey)) in
       if negb (ok res) then throw (Error ("API " ++ Z_to_string (status res)))
       else
         when (can_send el)
           (do_sendUserMessage (mkMessage (summary survey) (get widgetItem "id"))))
      (fun _ =>
         when (can_send el)
           (do_sendUserMessage (mkMessage survey_apology (get widgetItem "id"))));;
    ret (VObj [("ok", VBool true)])
  else ret (VObj [("ok", VBool true)]).

(** *** Client tools and lifecycle callbacks *)

Record invocation : Type := mkInvocation {
  name : string;
  params : list (string * value)
}.

Definition success (b : bool) : value := VObj [("success", VBool b)].

(** [id] and [text], as the [record_fact] branch binds them. *)
Definition fact_id (params : list (string * value)) : string :=
  to_string (nullish (get (VObj params) "fact_id") (VStr "")).

Definition fact_text (params : list (string * value)) : string :=
  to_string (nullish (get (VObj params) "fact_text") (VStr "")).

Definition onClientTool (inv : invocation) : M value :=
  if String.eqb (name inv) "switch_theme" then
    let requested := get (VObj (params inv)) "theme" in
    match requested with
    | VStr scheme =>
        if String.eqb scheme "light" || String.eqb scheme "dark" then
          emit (ThemeRequest scheme);;
          ret (success true)
        else ret (success false)
    | _ => ret (success false)
    end
  else if String.eqb (name inv) "record_fact" then
    let id := fact_id (params inv) in
    let text := fact_text (params inv) in
    let* seen := gets (fun st => bool_decide (id ∈ processedFacts st)) in
    if String.eqb id "" || seen then ret (success true)
    else
      modify (with_processedFacts (fun facts => facts ∪ {[ id ]}));;
      emit (WidgetAction (mkFactAction id (trim (collapse_spaces text))));;
      ret (success true)
  else ret (success false).

Definition onResponseEnd : M unit := emit ResponseEnd.

Definition onResponseStart : M unit :=
  setErrorState (mkErrorUpdates None None (Some None) (Some false)).

Definition onThreadChange : M unit := modify (with_processedFacts (fun _ => ∅)).

(** *** What is rendered *)

Definition blockingError (e : ErrorState) : option string :=
  match script e with
  | Some m => Some m
  | None =>
      match session e with
      | Some m => Some m
      | None => integration e
      end
  end.

(** Whether [ErrorOverlay] is given [handleResetChat] as [onRetry]:
    [blockingError && errors.retryable]. *)
Definition retry_offered (e : ErrorState) : bool :=
  match blockingError e with
  | Some m => negb (String.eqb m "") && retryable e
  | None => false
  end.

(** *** The panel as a transition system *)

Inductive event : Type :=
| ScriptEffect
| ScriptLoaded
| ScriptError (detail : value)
| ScriptTimeout
| Unmount
| ConfigEffect
| RefAttached (k : kit)
| ResetChat
| GetClientSecret (currentSecret : value)
| Action (act : action) (widgetItem : value)
| ClientTool (inv : invocation)
| ResponseStarted
| ResponseEnded
| ThreadChanged.

Definition ignore {A} (m : M A) : M unit := m;; ret tt.

Definition handler (ev : event) : M unit :=
  match ev with
  | ScriptEffect => ignore scriptEffect
  | ScriptLoaded => handleLoaded
  | ScriptError detail => handleError detail
  | ScriptTimeout => scriptTimeout
  | Unmount => unmount
  | ConfigEffect => configEffect
  | RefAttached k => modify (with_kitRef k)
  | ResetChat => handleResetChat
  | GetClientSecret currentSecret => ignore (getClientSecret currentSecret)
  | Action act widgetItem => ignore (onAction act widgetItem)
  | ClientTool inv => ignore (onClientTool inv)
  | ResponseStarted => onResponseStart
  | ResponseEnded => onResponseEnd
  | ThreadChanged => onThreadChange
  end.

(** The state after a handler ran, whether it returned or threw. *)
Definition after {A} (m : M A) (w : world) (st : state) : state := snd (m w st).

(** Every callback may fire at any time, in any world: a superset of what
    React and the widget runtime schedule. *)
Inductive reachable : state -> Prop :=
| reachable_initial (w : world) : reachable (initial w)
| reachable_step (w : world) (ev : event) (st : state) :
    reachable st -> reachable (after (handler ev) w st).

(** A handler keeps the property [P] of the state, however it ends. *)
Definition preserves (P : state -> Prop) {A} (m : M A) : Prop :=
  forall w st, P st -> P (after m w st).

(** The [retryable] flag is off. *)
Definition not_retryable (st : state) : Prop := retryable (errors st) = false.

(** The events that leave the conversation thread in place: all but a
    thread change and a manual restart. *)
Definition same_thread (ev : event) : bool :=
  match ev with
  | ThreadChanged | ResetChat => false
  | _ => true
  end.

(** The events of [evs], one after the other, each in its world. *)
Fixpoint run_events (evs : list (world * event)) (st : state) : state :=
  match evs with
  | [] => st
  | (w, ev) :: rest => run_events rest (after (handler ev) w st)
  end.

(** How often [onWidgetAction] was called for the fact [id]. *)
Fixpoint saves_of (id : string) (effects : list effect) : nat :=
  match effects with
  | [] => 0%nat
  | WidgetAction a :: rest =>
      if String.eqb (factId a) id then S (saves_of id rest) else saves_of id rest
  | _ :: rest => saves_of id rest
  end.

(** The fact [id] is recorded and was saved [n] times. *)
Definition recorded (id : string) (n : nat) (st : state) : Prop :=
  id ∈ processedFacts st /\ saves_of id (trace st) = n.

End Panel.

(** ** The quiz endpoint, [POST] of [app/api/quiz/submit/route.ts] *)

Module QuizRoute.

Import Panel.

(** A [NextResponse.json(body, { status })]. *)
Record reply : Type := mkReply {
  reply_status : Z;
  reply_body : value
}.

Definition missing_fields : reply :=
  mkReply 400 (VObj [("error", VStr "Missing quizId or answer")]).

(** [const { quizId, answer } = v]: destructuring [null] or [undefined]
    throws a [TypeError]. *)
Definition destructure (v : value) : outcome (value * value) :=
  match v with
  | VNull | VUndefined => Throw (Error "Cannot destructure")
  | _ => Ok (get v "quizId", get v "answer")
  end.

(** [json] is what [req.json()] settles to: the parsed body, or a rejection
    when the body is not JSON. *)
Definition POST (json : outcome value) : reply :=
  let attempt : outcome reply :=
    let parsed := match json with
                  | Ok v => v
                  | Throw _ => VObj []
                  end in
    match destructure parsed with
    | Throw e => Throw e
    | Ok (quizId, answer) =>
        if negb (truthy quizId) || negb (truthy answer) then
          Ok missing_fields
        else Ok (mkReply 200 (VObj [("ok", VBool true)]))
    end in
  match attempt with
  | Ok r => r
  | Throw _ => mkReply 500 (VObj [("error", VStr "Internal error")])
  end.

End QuizRoute.

(** ** The survey endpoint, the second [POST] of the same file *)

Module SurveyRoute.

Import Panel QuizRoute.

Definition missing_required : reply :=
  mkReply 400 (VObj [("error", VStr "Missing required fields")]).

Definition POST (json : outcome value) : reply :=
  let attempt : outcome reply :=
    let body := match json with
                | Ok v => v
                | Throw _ => VObj []
                end in
    (* [body || {}] is never nullish, so the destructuring cannot throw *)
    let fields := if truthy body then body else VObj [] in
    if negb (truthy (get fields "q1")) || negb (truthy (get fields "q2"))
       || negb (truthy (get fields "q3"))
    then Ok missing_required
    else Ok (mkReply 200 (VObj [("ok", VBool true)])) in
  match attempt with
  | Ok r => r
  | Throw _ => mkReply 500 (VObj [("error", VStr "Internal error")])
  end.

End SurveyRoute.

(** ** The specification's wording of the survey summary *)

Module SurveySpec.

Import Panel.

Definition is_separator (c : ascii) : bool :=
  ((code c =? 45) || (code c =? 95))%N.

Definition is_alnum (c : ascii) : bool :=
  let n := code c in
  ((48 <=? n) && (n <=? 57) || (65 <=? n) && (n <=? 90)
   || (97 <=? n) && (n <=? 122))%N.

(** Title case with separators converted to spaces: [-] and [_] become a
    space, and the first character of every run of letters and digits is
    put in upper case. [in_word] says that the character before is a
    letter or digit. *)
Definition title_char (in_word : bool) (c : ascii) : ascii :=
  if is_separator c then " "%char
  else if is_alnum c && negb in_word then toUpperCase c
  else c.

Fixpoint title_case_from (in_word : bool) (s : string) : string :=
  match s with
  | EmptyString => EmptyString
  | String c rest => String (title_char in_word c) (title_case_from (is_alnum c) rest)
  end.

Definition title_case (s : string) : string := title_case_from false s.

(** The q4 line: comma-joined, same formatting, or ["None"]. *)
Definition allergy_line (options : list string) : string :=
  match options with
  | [] => "None"
  | _ => String.concat ", " (map title_case options)
  end.

(** As the specification words it: each value title-cased. *)
Definition render_claimed (v : value) : string := title_case (to_string v).

(** Title case for a value that is a string; any other value, such as the
    [null] of an absent field, converted as [String] does. *)
Definition render_designed (v : value) : string :=
  match v with
  | VStr s => title_case s
  | _ => to_string v
  end.

(** [line] is a whole line of [s]. *)
Definition has_line (s line : string) : Prop :=
  exists before after,
    s = before ++ line ++ after
    /\ (before = "" \/ exists b, before = b ++ nl)
    /\ (after = "" \/ exists a, after = nl ++ a).

(** [sub] occurs in [s], as a test. *)
Fixpoint includes (s sub : string) : bool :=
  startsWith s sub
  || match s with
     | EmptyString => false
     | String _ rest => includes rest sub
     end.

End SurveySpec.

(** ** Sample worlds and states *)

Module Examples.

Import Panel.

(** A world whose session and submission endpoints answer [reply] and whose
    [JSON.parse] gives [parsed] on any text. *)
Definition world_of (workflow : option string) (reply : outcome response)
    (parsed : option value) : world :=
  {| WORKFLOW_ID := workflow;
     CREATE_SESSION_ENDPOINT := "/api/create-session";
     isBrowser := true;
     customElementDefined := true;
     JSON_parse := fun _ => parsed;
     fetch := fun _ => reply;
     sendUserMessage := fun _ => None |}.

Definition offline : outcome response := Throw (Error "Failed to fetch").

Definition replied (status : Z) (statusText body : string) : outcome response :=
  Ok (mkResponse status statusText (Ok body)).

(** The workflow identifier left at the placeholder. *)
Definition unconfigured : world :=
  world_of (Some "wf_replace_with_your_workflow_id") offline None.

(** A session endpoint that answers 200 with the payload [data]. *)
Definition session_world (data : value) : world :=
  world_of (Some "wf_68e0") (replied 200 "OK" "(body)") (Some data).

(** The same world with the network down. *)
Definition cut_off (w : world) : world :=
  mkWorld (WORKFLOW_ID w) (CREATE_SESSION_ENDPOINT w) (isBrowser w)
    (customElementDefined w) (JSON_parse w) (fun _ => offline) (sendUserMessage w).

(** The same world with an element whose [sendUserMessage] rejects. *)
Definition busy (w : world) : world :=
  mkWorld (WORKFLOW_ID w) (CREATE_SESSION_ENDPOINT w) (isBrowser w)
    (customElementDefined w) (JSON_parse w) (fetch w)
    (fun _ => Some (Error "busy")).

(** The panel after a first credential request found the network down. *)
Definition failed_once (w : world) : state :=
  after (getClientSecret VNull) (cut_off w) (initial w).

(** A panel that was torn down. *)
Definition torn_down (st : state) (w : world) : state := after unmount w st.

(** A mounted panel whose element has [sendUserMessage]. *)
Definition attached (w : world) : state :=
  after (handler (RefAttached (KitElement true))) w (initial w).

Definition quiz_action : action :=
  ActionObject (VStr "question.submit")
    (Some [("quizId", VStr "Q1"); ("answer", VStr "B")]).

Definition widget_item : value := VObj [("id", VStr "item_1")].

Definition record_fact (id text : string) : invocation :=
  mkInvocation "record_fact" [("fact_id", VStr id); ("fact_text", VStr text)].

(** Events of one thread: another fact, the same fact again, a theme
    switch, a credential request, a response. *)
Definition busy_thread : list (world * event) :=
  [ (unconfigured, ClientTool (record_fact "f2" "owns a cat"));
    (unconfigured, ClientTool (record_fact "f1" "likes green tea"));
    (unconfigured, ClientTool (mkInvocation "switch_theme" [("theme", VStr "dark")]));
    (unconfigured, GetClientSecret VNull);
    (unconfigured, ResponseStarted);
    (unconfigured, ResponseEnded) ].

End Examples.

(** ** The replies of the endpoints *)

Module Replies.

Definition accepted : QuizRoute.reply :=
  QuizRoute.mkReply 200 (VObj [("ok", VBool true)]).

Definition internal_error : QuizRoute.reply :=
  QuizRoute.mkReply 500 (VObj [("error", VStr "Internal error")]).

End Replies.

(** ** What the panel renders, and how a credential request settles *)

Module Render.

Import Panel.

(** [Boolean(m)] for a slot [m : string | null]. *)
Definition is_set (m : option string) : bool :=
  match m with
  | Some text => negb (String.eqb text "")
  | None => false
  end.

(** The class of [ChatKit] is the hidden one:
    [blockingError || isInitializingSession]. *)
Definition widget_hidden (st : state) : bool :=
  is_set (blockingError (errors st)) || isInitializingSession st.

(** The [fallbackMessage] prop of [ErrorOverlay]. *)
Definition fallbackMessage (st : state) : option string :=
  if is_set (blockingError (errors st)) || negb (isInitializingSession st) then None
  else Some "Loading assistant session...".

End Render.

Module Settle.

Import Panel.

(** What the [try] block of [getClientSecret] comes to in the world [w]. *)
Definition session_attempt (w : world) : outcome value :=
  match fetch w (session_request w) with
  | Throw e => Throw e
  | Ok r =>
      match raw r with
      | Throw e => Throw e
      | Ok text =>
          let data := parse_body w text in
          if ok r then
            if truthy (get data "client_secret") then Ok (get data "client_secret")
            else Throw (Error missing_secret)
          else Throw (Error (ErrorDetail.extractErrorDetail data (statusText r)))
      end
  end.

(** [detail] of the [catch] block. *)
Definition failure_message (e : exn) : string :=
  match e with
  | Error msg => msg
  | Thrown _ => "Unable to start ChatKit session."
  end.

(** What the caller of [getClientSecret] gets. *)
Definition settled_result (attempt : outcome value) : outcome value :=
  match attempt with
  | Ok secret => Ok secret
  | Throw e => Throw (Error (failure_message e))
  end.

(** The state once the request has settled. *)
Definition settled_state (currentSecret : value) (attempt : outcome value)
    (w : world) (st : state) : state :=
  let fetched := with_effect (Fetch (session_request w)) st in
  if isMounted st then
    with_isInitializingSession
      (if truthy currentSecret then isInitializingSession st else false)
      (with_errors
         (fun e => mkErrorState (script e)
                     (match attempt with
                      | Ok _ => None
                      | Throw x => Some (failure_message x)
                      end)
                     None false)
         fetched)
  else fetched.

(** Everything of the state but the trace of effects. *)
Definition component (st : state) :=
  (processedFacts st, errors st, isInitializingSession st, isMounted st,
   scriptStatus st, widgetInstanceKey st, kitRef st).

(** The callbacks that start with the liveness check. *)
Definition guarded (ev : event) : bool :=
  match ev with
  | ScriptEffect | ScriptLoaded | ScriptError _ | ScriptTimeout
  | ConfigEffect | GetClientSecret _ => true
  | _ => false
  end.

(** Since the thread began with [base id] saves of each fact, a fact was
    saved once more exactly when it is in the set. *)
Definition thread_counted (base : string -> nat) (st : state) : Prop :=
  forall id,
    saves_of id (trace st)
    = (base id + if bool_decide (id ∈ processedFacts st) then 1 else 0)%nat.

(** The configuration message is in the session slot, not retryable. *)
Definition config_recorded (st : state) : Prop :=
  session (errors st) = Some configuration_error /\ retryable (errors st) = false.

(** No white space character starts anywhere in [s]. *)
Fixpoint no_space (s : string) : Prop :=
  match s with
  | EmptyString => True
  | String _ rest => space_width s = 0%nat /\ no_space rest
  end.

(** The script slot is empty or holds a message that [handleError] built. *)
Definition script_slot_built (st : state) : Prop :=
  script (errors st) = None
  \/ exists detail, script (errors st) = Some ("Error: " ++ detail).

(** [v] is [null] or [undefined]. *)
Definition is_nullish (v : value) : bool :=
  match v with
  | VUndefined | VNull => true
  | _ => false
  end.

Definition is_reset (ev : event) : bool :=
  match ev with
  | ResetChat => true
  | _ => false
  end.

End Settle.

(** * Properties *)

(** ** Error-message extraction *)

Module ErrorDetailFacts.

Import ErrorDetail.

(** Case analysis on every property the goal looks up. *)
Ltac case_lookups :=
  repeat (simpl;
          match goal with
          | |- context [lookup_entry ?k ?es] =>
              let H := fresh "Hlookup" in
              destruct (lookup_entry k es) as [[]|] eqn:H
          | |- context [negb (?n =? 0)] => destruct (n =? 0)
          | |- context [String.eqb ?s ""] => destruct (String.eqb s "")
          | |- context [?b && false] => is_var b; destruct b
          end);
  simpl; try reflexivity.

Lemma extract_as_rules (payload : value) (fallback : string) :
  extractErrorDetail payload fallback
  = first_match extraction_rules payload fallback.
Proof.
  unfold extractErrorDetail.
  destruct payload as [| |[]|n|s|items|entries]; case_lookups.
Qed.

(** C1. [extractErrorDetail] returns the first match of the precedence
    order [error] string, [error.message], [details] string,
    [details.error], [details.error.message], [message], else the
    fallback; in particular on the seven payload shapes of the
    specification. *)
Theorem extractErrorDetail_precedence :
  (forall payload fallback,
      extractErrorDetail payload fallback
      = first_match extraction_rules payload fallback)
  /\ (forall A fallback,
         extractErrorDetail (VObj [("error", VStr A)]) fallback = A)
  /\ (forall B fallback,
         extractErrorDetail (VObj [("error", VObj [("message", VStr B)])]) fallback = B)
  /\ (forall C fallback,
         extractErrorDetail (VObj [("details", VStr C)]) fallback = C)
  /\ (forall D fallback,
         extractErrorDetail (VObj [("details", VObj [("error", VStr D)])]) fallback = D)
  /\ (forall E fallback,
         extractErrorDetail
           (VObj [("details", VObj [("error", VObj [("message", VStr E)])])]) fallback = E)
  /\ (forall F fallback,
         extractErrorDetail (VObj [("message", VStr F)]) fallback = F)
  /\ (forall fallback, extractErrorDetail (VObj []) fallback = fallback).
Proof.
  split; [exact extract_as_rules|].
  repeat split; intros; reflexivity.
Qed.

End ErrorDetailFacts.

(** ** Text *)

Module TextFacts.

Lemma append_cons (a : ascii) (p rest : string) :
  String a p ++ rest = String a (p ++ rest).
Proof. reflexivity. Qed.

Lemma append_empty (rest : string) : "" ++ rest = rest.
Proof. reflexivity. Qed.

Lemma append_assoc (a b c : string) : (a ++ b) ++ c = a ++ b ++ c.
Proof.
  induction a as [|x a IH]; [reflexivity|].
  rewrite !append_cons. now rewrite IH.
Qed.

Lemma startsWith_spec (p s : string) :
  startsWith s p = true <-> exists rest, s = p ++ rest.
Proof.
  unfold startsWith. revert s.
  induction p as [|a p IH]; intros s; simpl.
  - destruct s; split; eauto.
  - destruct s as [|b s]; simpl.
    + split; [discriminate|]. intros [rest Hrest]. discriminate.
    + destruct (ascii_dec a b) as [->|Hne].
      * rewrite IH. split; intros [rest Hrest]; exists rest;
          rewrite append_cons in *; congruence.
      * split; [discriminate|]. intros [rest Hrest].
        rewrite append_cons in Hrest. congruence.
Qed.

Lemma drop_chars_app (p rest : string) :
  drop_chars (String.length p) (p ++ rest) = rest.
Proof.
  induction p as [|a p IH].
  - rewrite append_empty. destruct rest; reflexivity.
  - rewrite append_cons. simpl. exact IH.
Qed.

Lemma strip_prefix_app (p rest : string) : strip_prefix p (p ++ rest) = rest.
Proof.
  unfold strip_prefix.
  replace (startsWith (p ++ rest) p) with true
    by (symmetry; apply startsWith_spec; eauto).
  apply drop_chars_app.
Qed.

(** Tab, no-break space (U+00A0), em space (U+2003) and line feed are all
    white space; the bytes of a letter with an accent are not. *)
Example trim_collapse_unicode :
  trim (collapse_spaces
          (String "009" (" caf" ++ String "195" (String "169" (String "194" (String "160"
             (String "226" (String "128" (String "131" ("au lait " ++ String "010" ""))))))))))
  = "caf" ++ String "195" (String "169" " au lait").
Proof. reflexivity. Qed.

Example trim_all_space : trim (collapse_spaces (String "009" "   ")) = "".
Proof. reflexivity. Qed.

Example replace_collapses_runs : collapse_spaces "  a   b  " = " a b ".
Proof. reflexivity. Qed.

End TextFacts.

(** ** The survey: allergy list and summary *)

Module SurveyFacts.

Import Panel TextFacts.

Lemma collected_cons (k : string) (v : value) (payload : list (string * value)) :
  allergies_collected ((k, v) :: payload)
  = if startsWith k "q4_" && truthy v
    then strip_prefix "q4_" k :: allergies_collected payload
    else allergies_collected payload.
Proof.
  unfold allergies_collected. simpl.
  destruct (startsWith k "q4_" && truthy v); reflexivity.
Qed.

Lemma restore_prefix (k : string) :
  startsWith k "q4_" = true -> "q4_" ++ strip_prefix "q4_" k = k.
Proof.
  intros Hk. apply startsWith_spec in Hk as [rest ->].
  now rewrite strip_prefix_app.
Qed.

Lemma collected_member (payload : list (string * value)) (name : string) :
  name ∈ allergies_collected payload
  <-> exists v, ("q4_" ++ name, v) ∈ payload /\ truthy v = true.
Proof.
  induction payload as [|[k v] payload IH].
  - split; [intros Hin; inversion Hin|intros (v & Hin & _); inversion Hin].
  - rewrite collected_cons.
    destruct (startsWith k "q4_") eqn:Hk; simpl.
    + destruct (truthy v) eqn:Hv.
      * rewrite elem_of_cons, IH. split.
        -- intros [->|(v' & Hin & Hv')].
           ++ exists v. rewrite restore_prefix by assumption. split; [left|assumption].
           ++ exists v'. split; [now right|assumption].
        -- intros (v' & Hin & Hv'). apply elem_of_cons in Hin as [Heq|Hin].
           ++ left. injection Heq as <- _. now rewrite strip_prefix_app.
           ++ right. eauto.
      * rewrite IH. split; intros (v' & Hin & Hv').
        -- exists v'. split; [now right|assumption].
        -- apply elem_of_cons in Hin as [Heq|Hin]; [|eauto].
           injection Heq as _ Hvv. congruence.
    + rewrite IH. split; intros (v' & Hin & Hv').
      * exists v'. split; [now right|assumption].
      * apply elem_of_cons in Hin as [Heq|Hin]; [|eauto].
        injection Heq as <- _.
        assert (startsWith ("q4_" ++ name) "q4_" = true) by (apply startsWith_spec; eauto).
        congruence.
Qed.

Lemma collected_order (payload : list (string * value)) :
  map (String.append "q4_") (allergies_collected payload)
  `sublist_of` map fst payload.
Proof.
  induction payload as [|[k v] payload IH]; [constructor|].
  rewrite collected_cons.
  destruct (startsWith k "q4_") eqn:Hk; simpl; [destruct (truthy v)|];
    simpl; try (now apply sublist_cons).
  rewrite restore_prefix by assumption. now apply sublist_skip.
Qed.

Lemma includes_none (l : list string) :
  existsb (String.eqb "none") l = bool_decide ("none" ∈ l).
Proof.
  induction l as [|x l IH]; cbn [existsb].
  - rewrite bool_decide_false; [reflexivity|]. intros H; inversion H.
  - destruct (String.eqb_spec "none" x) as [<-|Hne]; cbn [orb].
    + rewrite bool_decide_true; [reflexivity|left].
    + rewrite IH. apply bool_decide_ext. rewrite elem_of_cons.
      split; [now right|intros [Heq|Hin]; [congruence|assumption]].
Qed.

(** C2. The q4 normalization collects exactly the truthy [q4_*] keys, in
    payload order, prefix stripped (once each when the keys are distinct);
    a list that contains ["none"] becomes [["none"]]; no truthy [q4_*] key
    gives the empty list, rendered as ["None"]. *)
Theorem allergies_normalization (payload : list (string * value)) :
  let collected := allergies_collected payload in
  (forall name,
      name ∈ collected
      <-> exists v, ("q4_" ++ name, v) ∈ payload /\ truthy v = true)
  /\ map (String.append "q4_") collected `sublist_of` map fst payload
  /\ (NoDup (map fst payload) -> NoDup collected)
  /\ allergies payload
      = (if bool_decide ("none" ∈ collected) then ["none"] else collected)
  /\ ((forall k v, (k, v) ∈ payload -> startsWith k "q4_" = true -> truthy v = false)
      -> allergies payload = [] /\ list_text (allergies payload) = "None").
Proof.
  intros collected. subst collected.
  split; [apply collected_member|].
  split; [apply collected_order|].
  split.
  { intros Hnodup.
    apply (NoDup_fmap_1 (String.append "q4_")).
    eapply sublist_NoDup; [exact Hnodup|apply collected_order]. }
  split.
  { unfold allergies. cbv zeta. now rewrite includes_none. }
  intros Hnone.
  assert (allergies_collected payload = []) as Hempty.
  { destruct (allergies_collected payload) as [|name rest] eqn:Hc; [reflexivity|].
    assert (name ∈ allergies_collected payload) as Hin by (rewrite Hc; left).
    apply collected_member in Hin as (v & Hin & Hv).
    rewrite (Hnone _ _ Hin) in Hv; [discriminate|].
    apply startsWith_spec. eauto. }
  unfold allergies. rewrite Hempty. split; reflexivity.
Qed.

Lemma is_word_replaced (c : ascii) :
  is_word (if ((code c =? 45) || (code c =? 95))%N then " "%char else c)
  = SurveySpec.is_alnum c.
Proof. destruct c as [[] [] [] [] [] [] [] []]; reflexivity. Qed.

Lemma capitalize_replaced (in_word : bool) (c : ascii) :
  (let c' := if ((code c =? 45) || (code c =? 95))%N then " "%char else c in
   if is_word c' && negb in_word then toUpperCase c' else c')
  = SurveySpec.title_char in_word c.
Proof. destruct in_word, c as [[] [] [] [] [] [] [] []]; reflexivity. Qed.

Lemma capitalize_title_case (in_word : bool) (s : string) :
  capitalize_words in_word (replace_separators s)
  = SurveySpec.title_case_from in_word s.
Proof.
  revert in_word. induction s as [|c s IH]; intros in_word; [reflexivity|].
  cbn [replace_separators capitalize_words SurveySpec.title_case_from].
  f_equal; [apply capitalize_replaced|].
  rewrite is_word_replaced. apply IH.
Qed.

Lemma pretty_string (s : string) : pretty (VStr s) = SurveySpec.title_case s.
Proof. apply capitalize_title_case. Qed.

Lemma list_text_allergy_line (options : list string) :
  list_text options = SurveySpec.allergy_line options.
Proof.
  unfold list_text, SurveySpec.allergy_line.
  destruct options as [|o options]; [reflexivity|].
  f_equal. apply map_ext. intros. apply pretty_string.
Qed.

Lemma pretty_designed (v : value) : pretty v = SurveySpec.render_designed v.
Proof. destruct v; try reflexivity. apply pretty_string. Qed.

(** The summary, line by line. *)
Lemma summary_text (survey : Survey) :
  summary survey
  = String.concat nl
      [ "Survey saved:";
        "- Skin type: " ++ SurveySpec.render_designed (q1 survey);
        "- Primary concern: " ++ SurveySpec.render_designed (q2 survey);
        "- Allergies: " ++ SurveySpec.allergy_line (q4 survey);
        "- Product preference: " ++ SurveySpec.render_designed (q5 survey);
        "- Routine: " ++ SurveySpec.render_designed (q6 survey);
        "- Sensitivity: " ++ SurveySpec.render_designed (q7 survey);
        "- Desired results: " ++ SurveySpec.render_designed (q8 survey) ].
Proof.
  unfold summary. rewrite !pretty_designed, list_text_allergy_line. reflexivity.
Qed.

Lemma append_empty_r (s : string) : s ++ "" = s.
Proof. induction s as [|c s IH]; [reflexivity|]. rewrite append_cons. now rewrite IH. Qed.

Lemma concat_cons (sep x y : string) (l : list string) :
  String.concat sep (x :: y :: l) = x ++ sep ++ String.concat sep (y :: l).
Proof. reflexivity. Qed.

(** An element of a list joined by newlines is a line of the result. *)
Lemma has_line_concat (xs ys : list string) (line : string) :
  SurveySpec.has_line (String.concat nl (xs ++ line :: ys)) line.
Proof.
  induction xs as [|x xs IH].
  - exists "". destruct ys as [|y ys].
    + exists "". simpl. rewrite append_empty_r. auto.
    + exists (nl ++ String.concat nl (y :: ys)).
      rewrite app_nil_l, concat_cons.
      split; [reflexivity|]. split; [now left|right; eauto].
  - destruct IH as (before & after & Heq & Hbefore & Hafter).
    exists (x ++ nl ++ before), after.
    replace (String.concat nl ((x :: xs) ++ line :: ys))
      with (x ++ nl ++ String.concat nl (xs ++ line :: ys))
      by (destruct xs; reflexivity).
    rewrite Heq, !append_assoc. split; [reflexivity|]. split; [right|exact Hafter].
    destruct Hbefore as [->|[b ->]].
    + exists x. now rewrite append_empty_r.
    + exists (x ++ nl ++ b). now rewrite !append_assoc.
Qed.

Lemma includes_unfold (s sub : string) :
  SurveySpec.includes s sub
  = startsWith s sub
    || match s with
       | EmptyString => false
       | String _ rest => SurveySpec.includes rest sub
       end.
Proof. destruct s; reflexivity. Qed.

Lemma contains_includes (s sub : string) : contains s sub -> SurveySpec.includes s sub = true.
Proof.
  intros (before & after & ->).
  induction before as [|c before IH].
  - rewrite append_empty, includes_unfold.
    replace (startsWith (sub ++ after) sub) with true; [reflexivity|].
    symmetry. apply startsWith_spec. eauto.
  - rewrite append_cons, includes_unfold, IH. apply orb_true_r.
Qed.

Lemma has_line_contains (s line : string) : SurveySpec.has_line s line -> contains s line.
Proof. intros (before & after & Heq & _). exists before, after. exact Heq. Qed.

(** C3, as amended. The summary has a line for each of q1, q2, q5, q6, q7,
    q8 and one for q4: a value that is a string is title-cased with [-]
    and [_] converted to spaces, any other value (the [null] of an absent
    field) is converted as [String] does, and the q4 list is comma-joined
    in the same formatting, or ["None"] when empty. *)
Theorem summary_lines (payload : list (string * value)) :
  let survey := survey_of payload in
  let text := summary survey in
  SurveySpec.has_line text ("- Skin type: " ++ SurveySpec.render_designed (q1 survey))
  /\ SurveySpec.has_line text ("- Primary concern: " ++ SurveySpec.render_designed (q2 survey))
  /\ SurveySpec.has_line text ("- Allergies: " ++ SurveySpec.allergy_line (q4 survey))
  /\ SurveySpec.has_line text ("- Product preference: " ++ SurveySpec.render_designed (q5 survey))
  /\ SurveySpec.has_line text ("- Routine: " ++ SurveySpec.render_designed (q6 survey))
  /\ SurveySpec.has_line text ("- Sensitivity: " ++ SurveySpec.render_designed (q7 survey))
  /\ SurveySpec.has_line text ("- Desired results: " ++ SurveySpec.render_designed (q8 survey))
  /\ (forall s, SurveySpec.render_designed (VStr s) = SurveySpec.title_case s)
  /\ SurveySpec.render_designed VNull = "null"
  /\ SurveySpec.allergy_line [] = "None"
  /\ (forall o options,
         SurveySpec.allergy_line (o :: options)
         = String.concat ", " (map SurveySpec.title_case (o :: options))).
Proof.
  intros survey text. subst text. rewrite summary_text.
  repeat match goal with
         | |- _ /\ _ => split
         end; try reflexivity.
  - apply (has_line_concat [_]).
  - apply (has_line_concat [_; _]).
  - apply (has_line_concat [_; _; _]).
  - apply (has_line_concat [_; _; _; _]).
  - apply (has_line_concat [_; _; _; _; _]).
  - apply (has_line_concat [_; _; _; _; _; _]).
  - apply (has_line_concat [_; _; _; _; _; _; _]).
Qed.

(** C3 as worded fails: an absent field is rendered ["null"], which is not
    title case. *)
Lemma summary_absent_field_not_title_cased :
  let text := summary (survey_of []) in
  SurveySpec.render_claimed (q1 (survey_of [])) = "Null"
  /\ ~ SurveySpec.has_line text ("- Skin type: " ++ SurveySpec.render_claimed (q1 (survey_of [])))
  /\ text
     = String.concat nl
         [ "Survey saved:"; "- Skin type: null"; "- Primary concern: null";
           "- Allergies: None"; "- Product preference: null"; "- Routine: null";
           "- Sensitivity: null"; "- Desired results: null" ].
Proof.
  split; [reflexivity|]. split; [|reflexivity].
  intros Hline. apply has_line_contains, contains_includes in Hline. discriminate.
Qed.

(** The summary has no line for q3: its value occurs nowhere. *)
Example summary_leaves_q3_out :
  SurveySpec.includes
    (summary (survey_of [("q1", VStr "oily"); ("q2", VStr "acne"); ("q3", VStr "weekly")]))
    "Weekly" = false
  /\ SurveySpec.includes
       (summary (survey_of [("q1", VStr "oily"); ("q2", VStr "acne"); ("q3", VStr "weekly")]))
       "weekly" = false.
Proof. split; reflexivity. Qed.

Lemma allergies_normalization_witness :
  let payload := [("q1", VStr "oily"); ("q4_nuts", VBool false); ("q4_", VNum 0)] in
  NoDup (allergies_collected payload)
  /\ allergies payload = []
  /\ list_text (allergies payload) = "None".
Proof.
  destruct (allergies_normalization
              [("q1", VStr "oily"); ("q4_nuts", VBool false); ("q4_", VNum 0)])
    as (_ & _ & Hnodup & _ & Hnone).
  split; [|apply Hnone].
  - apply Hnodup. refine (bool_decide_unpack _ _). exact I.
  - intros k v Hin Hk.
    repeat (apply elem_of_cons in Hin as [Heq|Hin];
            [injection Heq as -> ->; try reflexivity; discriminate|]).
    inversion Hin.
Defined.

Example summary_of_strings :
  summary (survey_of [ ("q1", VStr "oily"); ("q2", VStr "fine-lines");
                       ("q3", VStr "twice_a_day"); ("q4_nuts", VBool true);
                       ("q4_pollen", VBool true); ("q5", VStr "fragrance-free");
                       ("q6", VStr "morning"); ("q7", VStr "high"); ("q8", VStr "glow") ])
  = String.concat nl
      [ "Survey saved:"; "- Skin type: Oily"; "- Primary concern: Fine Lines";
        "- Allergies: Nuts, Pollen"; "- Product preference: Fragrance Free";
        "- Routine: Morning"; "- Sensitivity: High"; "- Desired results: Glow" ].
Proof. reflexivity. Qed.

Example allergies_nuts_pollen :
  allergies [("q4_nuts", VBool true); ("q4_pollen", VBool true)] = ["nuts"; "pollen"].
Proof. reflexivity. Qed.

Example allergies_none_wins :
  allergies [("q4_none", VBool true); ("q4_nuts", VBool true)] = ["none"].
Proof. reflexivity. Qed.

Example allergies_no_flag :
  allergies [("q1", VStr "oily"); ("q4_nuts", VBool false)] = []
  /\ list_text (allergies [("q1", VStr "oily"); ("q4_nuts", VBool false)]) = "None".
Proof. split; reflexivity. Qed.

End SurveyFacts.

(** ** The panel controller *)

Module PanelFacts.

Import Panel.

(** *** Properties of the state that every handler keeps *)

Section Preservation.

Variable P : state -> Prop.

Lemma preserves_ret {A} (a : A) : preserves P (ret a).
Proof. intros w st H. exact H. Qed.

Lemma preserves_throw {A} (e : exn) : preserves P (@throw A e).
Proof. intros w st H. exact H. Qed.

Lemma preserves_gets {A} (f : state -> A) : preserves P (gets f).
Proof. intros w st H. exact H. Qed.

Lemma preserves_asks {A} (f : world -> A) : preserves P (asks f).
Proof. intros w st H. exact H. Qed.

Lemma preserves_modify (f : state -> state) :
  (forall st, P st -> P (f st)) -> preserves P (modify f).
Proof. intros Hf w st H. apply Hf, H. Qed.

Lemma preserves_bind {A B} (m : M A) (k : A -> M B) :
  preserves P m -> (forall a, preserves P (k a)) -> preserves P (bind m k).
Proof.
  intros Hm Hk w st H. unfold after, bind.
  specialize (Hm w st H). unfold after in Hm.
  destruct (m w st) as [[a|e] st']; simpl in *; [apply Hk|]; assumption.
Qed.

Lemma preserves_try_catch {A} (m : M A) (handler : exn -> M A) :
  preserves P m -> (forall e, preserves P (handler e)) -> preserves P (try_catch m handler).
Proof.
  intros Hm Hh w st H. unfold after, try_catch.
  specialize (Hm w st H). unfold after in Hm.
  destruct (m w st) as [[a|e] st']; simpl in *; [|apply Hh]; assumption.
Qed.

Lemma preserves_finally {A} (m : M A) (cleanup : M unit) :
  preserves P m -> preserves P cleanup -> preserves P (finally m cleanup).
Proof.
  intros Hm Hc w st H. unfold after, finally.
  specialize (Hm w st H). unfold after in Hm.
  destruct (m w st) as [r st']; simpl in *.
  specialize (Hc w st' Hm). unfold after in Hc.
  destruct (cleanup w st') as [[u|e] st'']; simpl in *; assumption.
Qed.

Lemma preserves_when (b : bool) (m : M unit) : preserves P m -> preserves P (when b m).
Proof. intros Hm. destruct b; [exact Hm|apply preserves_ret]. Qed.

End Preservation.

(** Decompose a handler along its structure. *)
Ltac preserve_step :=
  first
    [ apply preserves_ret | apply preserves_throw | apply preserves_gets
    | apply preserves_asks
    | apply preserves_bind; [|intros ?]
    | apply preserves_try_catch; [|intros ?]
    | apply preserves_finally
    | apply preserves_when
    | match goal with
      | |- preserves _ (if ?b then _ else _) => destruct b
      | |- preserves _ (match ?x with _ => _ end) => destruct x
      end ].

Ltac preserve := repeat first [preserve_step | progress cbv zeta].

Lemma not_retryable_setErrorState (updates : ErrorUpdates) :
  set_retryable updates = None \/ set_retryable updates = Some false ->
  preserves not_retryable (setErrorState updates).
Proof.
  intros Hu. apply preserves_modify. intros st H.
  unfold not_retryable in *. simpl.
  destruct Hu as [-> | ->]; simpl; [exact H|reflexivity].
Qed.

Lemma not_retryable_emit (e : effect) : preserves not_retryable (emit e).
Proof. apply preserves_modify. intros st H. exact H. Qed.

Ltac retryable_leaf :=
  first
    [ apply not_retryable_setErrorState; simpl; auto
    | apply not_retryable_emit
    | apply preserves_modify; intros ? ?; assumption
    | apply preserves_modify; intros ? ?; reflexivity ].

Lemma not_retryable_handler (ev : event) : preserves not_retryable (handler ev).
Proof.
  destruct ev; simpl; unfold ignore, onAction, onClientTool;
    preserve; retryable_leaf.
Qed.

(** C8. In every reachable state [retryable] is false, so the overlay is
    never given a retry handler. *)
Theorem retryable_never_set (st : state) :
  reachable st ->
  retryable (errors st) = false /\ retry_offered (errors st) = false.
Proof.
  intros Hreach.
  assert (not_retryable st) as Hflag.
  { induction Hreach as [w|w ev st Hreach IH]; [reflexivity|].
    apply not_retryable_handler, IH. }
  split; [exact Hflag|].
  unfold retry_offered. rewrite Hflag.
  destruct (blockingError (errors st)); [apply andb_false_r|reflexivity].
Qed.

(** A reachable state: a script error, then a credential request. *)
Lemma retryable_never_set_witness :
  let st := after (handler (GetClientSecret VNull)) Examples.unconfigured
              (after (handler (ScriptError VUndefined)) Examples.unconfigured
                 (initial Examples.unconfigured)) in
  reachable st /\ retryable (errors st) = false /\ retry_offered (errors st) = false.
Proof.
  split; [repeat constructor|].
  apply retryable_never_set. repeat constructor.
Defined.

(** *** Configuration failure *)

Lemma unconfigured_spec (w : world) :
  isWorkflowConfigured w = false
  <-> WORKFLOW_ID w = None \/ WORKFLOW_ID w = Some ""
      \/ exists rest, WORKFLOW_ID w = Some ("wf_replace" ++ rest).
Proof.
  unfold isWorkflowConfigured.
  destruct (WORKFLOW_ID w) as [id|]; [|split; auto].
  destruct (String.eqb_spec id "") as [->|Hne]; simpl.
  - split; auto.
  - destruct (startsWith id "wf_replace") eqn:Hp; simpl.
    + apply TextFacts.startsWith_spec in Hp as [rest ->]. split; eauto.
    + split; [discriminate|].
      intros [H|[H|[rest H]]]; try congruence.
      injection H as ->.
      assert (startsWith ("wf_replace" ++ rest) "wf_replace" = true)
        by (apply TextFacts.startsWith_spec; eauto).
      congruence.
Qed.

(** C7, as amended. With the workflow identifier unset or at its
    placeholder, credential acquisition fails at once with the
    configuration message and makes no network call; a mounted panel
    records the message in the session slot, not retryable, and a panel
    that was torn down keeps its state. *)
Theorem config_failure (w : world) (st : state) (currentSecret : value) :
  WORKFLOW_ID w = None \/ WORKFLOW_ID w = Some ""
  \/ (exists rest, WORKFLOW_ID w = Some ("wf_replace" ++ rest)) ->
  let run := getClientSecret currentSecret w st in
  fst run = Throw (Error configuration_error)
  /\ trace (snd run) = trace st
  /\ session (errors (snd run))
     = (if isMounted st then Some configuration_error else session (errors st))
  /\ retryable (errors (snd run))
     = (if isMounted st then false else retryable (errors st))
  /\ (isMounted st = false -> snd run = st).
Proof.
  intros Hw. apply unconfigured_spec in Hw.
  unfold getClientSecret, bind, asks, gets, when. rewrite Hw. simpl.
  destruct (isMounted st) eqn:Hm; simpl; repeat split; try reflexivity.
  discriminate.
Qed.

Lemma config_failure_witness :
  let run := getClientSecret VNull Examples.unconfigured
               (initial Examples.unconfigured) in
  fst run = Throw (Error configuration_error)
  /\ trace (snd run) = []
  /\ session (errors (snd run)) = Some configuration_error
  /\ retryable (errors (snd run)) = false.
Proof.
  destruct (config_failure Examples.unconfigured (initial Examples.unconfigured) VNull)
    as (Hr & Ht & Hs & Hf & _).
  - right. right. exists "_with_your_workflow_id". reflexivity.
  - repeat split; assumption.
Defined.

(** C7 as worded fails after teardown: nothing is recorded. *)
Lemma config_failure_unmounted_not_recorded :
  let st := Examples.torn_down (initial Examples.unconfigured) Examples.unconfigured in
  let run := getClientSecret VNull Examples.unconfigured st in
  isWorkflowConfigured Examples.unconfigured = false
  /\ fst run = Throw (Error configuration_error)
  /\ session (errors (snd run)) = None
  /\ session (errors (snd run)) <> Some configuration_error.
Proof. repeat split; discriminate. Qed.

(** *** Credential acquisition *)

(** C6, as amended. On a 2xx response of the session endpoint: a truthy
    [client_secret] is returned as the credential, and a mounted panel
    clears the session and integration slots; an absent or falsy
    [client_secret] fails with the missing-credential message, which a
    mounted panel records in the session slot; a panel that was torn down
    keeps its error state. *)
Theorem session_response (w : world) (st : state) (currentSecret : value)
    (r : response) (text : string) :
  isWorkflowConfigured w = true ->
  fetch w (session_request w) = Ok r ->
  ok r = true ->
  raw r = Ok text ->
  let credential := get (parse_body w text) "client_secret" in
  let run := getClientSecret currentSecret w st in
  fst run = (if truthy credential then Ok credential
             else Throw (Error missing_secret))
  /\ session (errors (snd run))
     = (if isMounted st
        then if truthy credential then None else Some missing_secret
        else session (errors st))
  /\ integration (errors (snd run))
     = (if isMounted st then None else integration (errors st))
  /\ trace (snd run) = (trace st ++ [Fetch (session_request w)])%list.
Proof.
  intros Hconf Hfetch Hok Hraw credential run. subst credential run.
  unfold getClientSecret, finally, try_catch, do_fetch, bind, asks, gets, when,
    emit, modify, ret, throw.
  rewrite Hconf. simpl. rewrite Hfetch.
  destruct (isMounted st) eqn:Hm; simpl;
    destruct (truthy currentSecret); simpl;
    rewrite ?Hfetch, ?Hraw, ?Hok, ?Hm; simpl; rewrite ?Hraw, ?Hok; simpl;
    destruct (truthy (get (parse_body w text) "client_secret")); simpl;
    repeat (rewrite Hm; simpl); unfold setIsInitializingSession, modify; simpl;
    repeat split; reflexivity.
Qed.

Lemma session_response_witness :
  let w := Examples.session_world (VObj [("client_secret", VStr "ek_123")]) in
  let run := getClientSecret VNull w (Examples.failed_once w) in
  session (errors (Examples.failed_once w)) = Some "Failed to fetch"
  /\ fst run = Ok (VStr "ek_123")
  /\ session (errors (snd run)) = None
  /\ integration (errors (snd run)) = None.
Proof.
  pose (w := Examples.session_world (VObj [("client_secret", VStr "ek_123")])).
  destruct (session_response w (Examples.failed_once w) VNull
              (mkResponse 200 "OK" (Ok "(body)")) "(body)")
    as (Hr & Hs & Hi & _); try reflexivity.
  repeat split; assumption.
Defined.

(** C6 as worded fails: after teardown a credential is returned and the
    session slot is not cleared; after teardown a missing credential is not
    recorded; and a credential field that is present but empty counts as
    missing. *)
Lemma session_response_not_as_worded :
  (let w := Examples.session_world (VObj [("client_secret", VStr "ek_123")]) in
   let run := getClientSecret VNull w (Examples.torn_down (Examples.failed_once w) w) in
   fst run = Ok (VStr "ek_123")
   /\ session (errors (snd run)) = Some "Failed to fetch")
  /\ (let w := Examples.session_world (VObj []) in
      let run := getClientSecret VNull w (Examples.torn_down (initial w) w) in
      fst run = Throw (Error missing_secret)
      /\ session (errors (snd run)) = None)
  /\ (let w := Examples.session_world (VObj [("client_secret", VStr "")]) in
      let run := getClientSecret VNull w (initial w) in
      has (VObj [("client_secret", VStr "")]) "client_secret" = true
      /\ fst run = Throw (Error missing_secret)).
Proof. repeat split. Qed.

(** *** Quiz dispatch *)

Lemma confirmation_contains (answer quizId : value) :
  contains (quiz_confirmation answer quizId) (to_string answer)
  /\ contains (quiz_confirmation answer quizId) (to_string quizId).
Proof.
  unfold quiz_confirmation. split.
  - exists ("Recorded your answer " ++ dquote),
      (dquote ++ " for quiz " ++ dquote ++ to_string quizId ++ dquote ++ ".").
    reflexivity.
  - exists ("Recorded your answer " ++ dquote ++ to_string answer ++ dquote
            ++ " for quiz " ++ dquote), (dquote ++ ".").
    rewrite !TextFacts.append_assoc. reflexivity.
Qed.

(** C4, as amended. A quiz dispatch makes one request to the quiz endpoint.
    When the element exposes [sendUserMessage] and the call resolves, the
    dispatch reports success whatever the backend did, and has sent, as a
    reply to the widget item, the confirmation naming answer and quiz on a
    2xx response and the apology on a rejected request or any other status.
    When the element does not expose [sendUserMessage], success is reported
    and nothing is sent. *)
Theorem quiz_dispatch (w : world) (st : state) (act : action) (widgetItem : value) :
  action_type act = "question.submit" ->
  let quizId := action_quizId act widgetItem in
  let answer := action_answer act widgetItem in
  let req := quiz_request quizId answer in
  let backend_ok := match fetch w req with
                    | Ok res => ok res
                    | Throw _ => false
                    end in
  let confirmation := mkMessage (quiz_confirmation answer quizId) (get widgetItem "id") in
  let apology := mkMessage quiz_apology (get widgetItem "id") in
  let result := VObj [("ok", VBool true); ("quizId", quizId); ("answer", answer)] in
  let run := onAction act widgetItem w st in
  (can_send (kitRef st) = true ->
   sendUserMessage w confirmation = None ->
   sendUserMessage w apology = None ->
   fst run = Ok result
   /\ trace (snd run)
      = (trace st ++ [Fetch req;
                      SendUserMessage (if backend_ok then confirmation else apology)])%list)
  /\ (can_send (kitRef st) = false ->
      fst run = Ok result /\ trace (snd run) = (trace st ++ [Fetch req])%list)
  /\ get result "ok" = VBool true
  /\ contains (text confirmation) (to_string answer)
  /\ contains (text confirmation) (to_string quizId).
Proof.
  intros Htype quizId answer req backend_ok confirmation apology result run.
  subst run. unfold onAction. cbv zeta. rewrite Htype.
  change (String.eqb "question.submit" "question.submit") with true. cbv iota.
  fold quizId answer req confirmation apology result.
  split; [|split; [|split; [reflexivity|apply confirmation_contains]]].
  - intros Hsend Hc Ha. subst backend_ok.
    unfold try_catch, do_fetch, do_sendUserMessage, bind, asks, gets, when, emit,
      modify, ret, throw.
    simpl. rewrite Hsend.
    destruct (fetch w req) as [res|e]; simpl.
    + destruct (ok res); simpl; [rewrite Hc|rewrite Ha]; simpl;
        rewrite <- app_assoc; split; reflexivity.
    + rewrite Ha. simpl. rewrite <- app_assoc. split; reflexivity.
  - intros Hsend.
    unfold try_catch, do_fetch, do_sendUserMessage, bind, asks, gets, when, emit,
      modify, ret, throw.
    simpl. rewrite Hsend.
    destruct (fetch w req) as [res|e]; simpl; [destruct (ok res)|]; simpl;
      split; reflexivity.
Qed.

Lemma quiz_dispatch_witness :
  let w := Examples.world_of (Some "wf_68e0") (Examples.replied 500 "Internal Server Error" "") None in
  let run := onAction Examples.quiz_action Examples.widget_item w (Examples.attached w) in
  fst run = Ok (VObj [("ok", VBool true); ("quizId", VStr "Q1"); ("answer", VStr "B")])
  /\ trace (snd run)
     = [Fetch (quiz_request (VStr "Q1") (VStr "B"));
        SendUserMessage (mkMessage quiz_apology (VStr "item_1"))].
Proof.
  pose (w := Examples.world_of (Some "wf_68e0")
               (Examples.replied 500 "Internal Server Error" "") None).
  destruct (quiz_dispatch w (Examples.attached w) Examples.quiz_action
              Examples.widget_item eq_refl) as (Hsent & _).
  exact (Hsent eq_refl eq_refl eq_refl).
Defined.

(** C4 as worded fails: with an empty element reference the backend
    accepts the answer and no confirmation is sent; and when
    [sendUserMessage] rejects, an accepted answer is followed by no
    confirmation, and a failed request by a dispatch that throws. *)
Lemma quiz_dispatch_not_as_worded :
  (let w := Examples.world_of (Some "wf_68e0") (Examples.replied 200 "OK" "") None in
   let run := onAction Examples.quiz_action Examples.widget_item w (initial w) in
   kitRef (initial w) = KitNull
   /\ fst run = Ok (VObj [("ok", VBool true); ("quizId", VStr "Q1"); ("answer", VStr "B")])
   /\ trace (snd run) = [Fetch (quiz_request (VStr "Q1") (VStr "B"))])
  /\ (let w := Examples.busy
                 (Examples.world_of (Some "wf_68e0") (Examples.replied 200 "OK" "") None) in
      let run := onAction Examples.quiz_action Examples.widget_item w (Examples.attached w) in
      fst run = Throw (Error "busy")
      /\ trace (snd run) = [Fetch (quiz_request (VStr "Q1") (VStr "B"))])
  /\ (let w := Examples.busy (Examples.world_of (Some "wf_68e0") Examples.offline None) in
      let run := onAction Examples.quiz_action Examples.widget_item w (Examples.attached w) in
      fst run = Throw (Error "busy")).
Proof. repeat split. Qed.

Example quiz_dispatch_confirms :
  let w := Examples.world_of (Some "wf_68e0") (Examples.replied 200 "OK" "") None in
  trace (after (onAction Examples.quiz_action Examples.widget_item) w (Examples.attached w))
  = [Fetch (quiz_request (VStr "Q1") (VStr "B"));
     SendUserMessage
       (mkMessage ("Recorded your answer " ++ dquote ++ "B" ++ dquote
                   ++ " for quiz " ++ dquote ++ "Q1" ++ dquote ++ ".")
                  (VStr "item_1"))].
Proof. reflexivity. Qed.

(** *** The [record_fact] tool *)

Lemma saves_of_app (id : string) (l1 l2 : list effect) :
  saves_of id (l1 ++ l2) = (saves_of id l1 + saves_of id l2)%nat.
Proof.
  induction l1 as [|e l1 IH]; [reflexivity|].
  simpl. destruct e; try exact IH.
  destruct (String.eqb (factId a) id); simpl; now rewrite IH.
Qed.

(** What a [record_fact] invocation does, by cases. *)
Lemma record_fact_run (w : world) (st : state) (p : list (string * value)) :
  onClientTool (mkInvocation "record_fact" p) w st
  = if String.eqb (fact_id p) "" || bool_decide (fact_id p ∈ processedFacts st)
    then (Ok (success true), st)
    else (Ok (success true),
          with_effect
            (WidgetAction (mkFactAction (fact_id p) (trim (collapse_spaces (fact_text p)))))
            (with_processedFacts (fun facts => facts ∪ {[ fact_id p ]}) st)).
Proof.
  unfold onClientTool, bind, gets, emit, modify, ret. simpl.
  destruct (String.eqb (fact_id p) "" || bool_decide (fact_id p ∈ processedFacts st));
    reflexivity.
Qed.

(** A client tool never forgets a fact, and saves no fact it has seen. *)
Lemma onClientTool_keeps (w : world) (st : state) (inv : invocation) (id : string) :
  id ∈ processedFacts st ->
  id ∈ processedFacts (after (onClientTool inv) w st)
  /\ saves_of id (trace (after (onClientTool inv) w st)) = saves_of id (trace st).
Proof.
  intros Hin. unfold after, onClientTool, bind, gets, emit, modify, ret.
  destruct (String.eqb (name inv) "switch_theme").
  - destruct (get (VObj (params inv)) "theme"); simpl; auto.
    destruct (String.eqb s "light" || String.eqb s "dark"); simpl; auto.
    split; [assumption|]. rewrite saves_of_app. simpl. lia.
  - destruct (String.eqb (name inv) "record_fact"); simpl; auto.
    destruct (String.eqb (fact_id (params inv)) "") eqn:Hempty; simpl; auto.
    case_bool_decide as Hseen; simpl; auto.
    split; [set_solver|].
    rewrite saves_of_app. simpl.
    destruct (String.eqb_spec (fact_id (params inv)) id) as [Heq|Hne]; [|lia].
    subst id. contradiction.
Qed.

Lemma after_ignore {A} (m : M A) (w : world) (st : state) :
  after (ignore m) w st = after m w st.
Proof.
  unfold after, ignore, bind, ret. destruct (m w st) as [[a|e] st']; reflexivity.
Qed.

Ltac recorded_leaf :=
  first
    [ apply preserves_modify; intros ? ?; assumption
    | apply preserves_modify; intros ? [? ?]; split;
      [assumption|simpl; rewrite saves_of_app; simpl; lia] ].

(** Within a thread no event forgets a fact or saves it again. *)
Lemma handler_keeps (w : world) (ev : event) (id : string) (n : nat) :
  same_thread ev = true -> preserves (recorded id n) (handler ev).
Proof.
  intros Hthread.
  destruct ev; try discriminate; simpl;
    try (unfold ignore, onAction; preserve; recorded_leaf).
  intros w' st [Hin Hsaves]. rewrite after_ignore.
  destruct (onClientTool_keeps w' st inv id Hin) as [Hin' Hsaves'].
  split; congruence.
Qed.

Lemma run_events_keeps (evs : list (world * event)) (st : state) (id : string) (n : nat) :
  Forall (fun we => same_thread (snd we) = true) evs ->
  recorded id n st -> recorded id n (run_events evs st).
Proof.
  intros Hevs. revert st.
  induction Hevs as [|[w ev] evs Hev Hevs IH]; intros st Hst; [exact Hst|].
  simpl. apply IH. now apply handler_keeps.
Qed.

(** C5. In a thread that has not recorded the fact yet, [record_fact]
    triggers the save callback, with the text collapsed and trimmed; after
    any further events of the same thread, a second invocation with the
    same identifier reports success and changes nothing, so the callback
    ran exactly once; after a thread change the same identifier triggers
    it again. An invocation with an empty identifier reports success and
    changes nothing. *)
Theorem record_fact_dedup (w : world) (st : state)
    (p1 p2 : list (string * value)) (between : list (world * event)) :
  let id := fact_id p1 in
  fact_id p2 = id ->
  Forall (fun we => same_thread (snd we) = true) between ->
  (id <> "" -> id ∉ processedFacts st ->
   let first := onClientTool (mkInvocation "record_fact" p1) w st in
   let st2 := run_events between (snd first) in
   let second := onClientTool (mkInvocation "record_fact" p2) w st2 in
   let st3 := after onThreadChange w (snd second) in
   let third := onClientTool (mkInvocation "record_fact" p2) w st3 in
   fst first = Ok (success true)
   /\ trace (snd first)
      = (trace st
         ++ [WidgetAction (mkFactAction id (trim (collapse_spaces (fact_text p1))))])%list
   /\ second = (Ok (success true), st2)
   /\ saves_of id (trace (snd second)) = S (saves_of id (trace st))
   /\ fst third = Ok (success true)
   /\ trace (snd third)
      = (trace st3
         ++ [WidgetAction (mkFactAction id (trim (collapse_spaces (fact_text p2))))])%list
   /\ saves_of id (trace (snd third)) = S (S (saves_of id (trace st))))
  /\ (id = "" ->
      onClientTool (mkInvocation "record_fact" p1) w st = (Ok (success true), st)).
Proof.
  intros id Hsame Hbetween. split.
  - intros Hid Hfresh first st2 second st3 third.
    assert (String.eqb id "" = false) as Hne by (now apply String.eqb_neq).
    assert (first = (Ok (success true),
                     with_effect
                       (WidgetAction (mkFactAction id (trim (collapse_spaces (fact_text p1)))))
                       (with_processedFacts (fun facts => facts ∪ {[ id ]}) st))) as Hfirst.
    { subst first. rewrite record_fact_run. fold id. rewrite Hne.
      rewrite bool_decide_false by assumption. reflexivity. }
    assert (recorded id (S (saves_of id (trace st))) (snd first)) as Hrec.
    { rewrite Hfirst. split; simpl; [set_solver|].
      rewrite saves_of_app. simpl. rewrite String.eqb_refl. lia. }
    apply (run_events_keeps between) in Hrec; [|assumption].
    fold st2 in Hrec. destruct Hrec as [Hin2 Hcount].
    assert (second = (Ok (success true), st2)) as Hsecond.
    { subst second. rewrite record_fact_run, Hsame, Hne.
      rewrite bool_decide_true by assumption. reflexivity. }
    assert (third = (Ok (success true),
                     with_effect
                       (WidgetAction (mkFactAction id (trim (collapse_spaces (fact_text p2)))))
                       (with_processedFacts (fun facts => facts ∪ {[ id ]}) st3))) as Hthird.
    { subst third. rewrite record_fact_run, Hsame, Hne.
      rewrite bool_decide_false; [reflexivity|].
      subst st3. unfold after, onThreadChange, modify. simpl. set_solver. }
    rewrite Hfirst, Hsecond, Hthird. simpl.
    repeat split; try reflexivity; try assumption.
    rewrite saves_of_app. simpl. rewrite String.eqb_refl.
    subst st3. rewrite Hsecond. unfold after, onThreadChange, modify. simpl.
    rewrite Hcount. lia.
  - intros Hid. rewrite record_fact_run. fold id. rewrite Hid. reflexivity.
Qed.

Lemma record_fact_dedup_witness :
  let w := Examples.unconfigured in
  let first := onClientTool (Examples.record_fact "f1" "  likes   green tea ") w (initial w) in
  let st2 := run_events Examples.busy_thread (snd first) in
  let second := onClientTool (Examples.record_fact "f1" "again") w st2 in
  trace (snd first) = [WidgetAction (mkFactAction "f1" "likes green tea")]
  /\ second = (Ok (success true), st2)
  /\ saves_of "f1" (trace (snd second)) = 1%nat.
Proof.
  pose (w := Examples.unconfigured).
  destruct (record_fact_dedup w (initial w)
              [("fact_id", VStr "f1"); ("fact_text", VStr "  likes   green tea ")]
              [("fact_id", VStr "f1"); ("fact_text", VStr "again")]
              Examples.busy_thread eq_refl)
    as [Honce _].
  - repeat constructor.
  - destruct Honce as (_ & Hfirst & Hsecond & Hcount & _).
    + discriminate.
    + apply not_elem_of_empty.
    + split; [exact Hfirst|split; [exact Hsecond|exact Hcount]].
Defined.

End PanelFacts.

(** ** The quiz endpoint *)

Module QuizRouteFacts.

Import QuizRoute.

(** A body that is an object: 400 unless both fields are truthy. *)
Lemma quiz_post_object (entries : list (string * value)) :
  POST (Panel.Ok (VObj entries))
  = if truthy (get (VObj entries) "quizId") && truthy (get (VObj entries) "answer")
    then mkReply 200 (VObj [("ok", VBool true)])
    else missing_fields.
Proof.
  unfold POST. simpl.
  destruct (truthy (default VUndefined (lookup_entry "quizId" entries)));
    destruct (truthy (default VUndefined (lookup_entry "answer" entries)));
    reflexivity.
Qed.

(** C9 at the body [null]: both fields are missing and the reply is the
    500 of the outer handler, not the 400; the survey handler, which reads
    [body || {}], replies 400 to the same body. *)
Theorem quiz_post_null_body :
  get VNull "quizId" = VUndefined
  /\ get VNull "answer" = VUndefined
  /\ POST (Panel.Ok VNull) = mkReply 500 (VObj [("error", VStr "Internal error")])
  /\ SurveyRoute.POST (Panel.Ok VNull) = SurveyRoute.missing_required.
Proof. repeat split. Qed.

(** C10. A body that is not JSON, and a body in which [quizId] or [answer]
    is present but falsy, get the 400 reply of an absent field; [POST]
    always replies, whatever [req.json()] settles to. *)
Theorem quiz_post_unusable_body :
  (forall e, POST (Panel.Throw e) = missing_fields)
  /\ (forall entries k v,
         k = "quizId" \/ k = "answer" ->
         lookup_entry k entries = Some v ->
         truthy v = false ->
         POST (Panel.Ok (VObj entries)) = missing_fields)
  /\ (forall entries k,
         k = "quizId" \/ k = "answer" ->
         lookup_entry k entries = None ->
         POST (Panel.Ok (VObj entries)) = missing_fields)
  /\ truthy (VStr "") = false /\ truthy (VNum 0) = false
  /\ truthy (VBool false) = false /\ truthy VNull = false.
Proof.
  split; [reflexivity|]. split; [|split; [|repeat split]].
  - intros entries k v Hk Hlookup Hfalsy. rewrite quiz_post_object.
    destruct Hk as [-> | ->]; simpl; rewrite Hlookup; simpl; rewrite Hfalsy;
      [reflexivity|now rewrite andb_false_r].
  - intros entries k Hk Hlookup. rewrite quiz_post_object.
    destruct Hk as [-> | ->]; simpl; rewrite Hlookup; simpl;
      [reflexivity|now rewrite andb_false_r].
Qed.

Lemma quiz_post_unusable_body_witness :
  POST (Panel.Ok (VObj [("quizId", VStr "Q1"); ("answer", VStr "")])) = missing_fields
  /\ POST (Panel.Ok (VObj [("quizId", VNum 0); ("answer", VStr "B")])) = missing_fields
  /\ POST (Panel.Ok (VObj [("quizId", VStr "Q1")])) = missing_fields.
Proof.
  destruct quiz_post_unusable_body as (_ & Hfalsy & Habsent & _).
  split; [|split].
  - apply (Hfalsy _ "answer" (VStr "")); [right|..]; reflexivity.
  - apply (Hfalsy _ "quizId" (VNum 0)); [left|..]; reflexivity.
  - apply (Habsent _ "answer"); [right|]; reflexivity.
Defined.

Example quiz_post_accepts :
  POST (Panel.Ok (VObj [("quizId", VStr "Q1"); ("answer", VStr "B")]))
  = mkReply 200 (VObj [("ok", VBool true)]).
Proof. reflexivity. Qed.

End QuizRouteFacts.

(** ** More on credential acquisition *)

Module SessionFacts.

Import Panel Render Settle PanelFacts.

Lemma getClientSecret_unconfigured (w : world) (st : state) (currentSecret : value) :
  isWorkflowConfigured w = false ->
  getClientSecret currentSecret w st
  = (Throw (Error configuration_error),
     if isMounted st then
       with_isInitializingSession false
         (with_errors
            (fun e => mkErrorState (script e) (Some configuration_error)
                        (integration e) false) st)
     else st).
Proof.
  intros Hw. unfold getClientSecret, bind, asks, gets, when. rewrite Hw. simpl.
  destruct (isMounted st); reflexivity.
Qed.

Lemma getClientSecret_configured (w : world) (st : state) (currentSecret : value) :
  isWorkflowConfigured w = true ->
  getClientSecret currentSecret w st
  = (settled_result (session_attempt w),
     settled_state currentSecret (session_attempt w) w st).
Proof.
  intros Hw. destruct st as [facts errs init mounted status key ref effects].
  unfold getClientSecret, settled_state, session_attempt, finally, try_catch, do_fetch,
    bind, asks, gets, when, emit, modify, ret, throw.
  rewrite Hw. simpl.
  destruct mounted; simpl; destruct (truthy currentSecret); simpl;
    destruct (fetch w (session_request w)) as [r|[msg|v]]; simpl; try reflexivity;
    destruct (raw r) as [text|[msg|v]]; simpl; try reflexivity;
    destruct (ok r); simpl; try reflexivity;
    destruct (truthy (get (parse_body w text) "client_secret")); reflexivity.
Qed.

(** A payload that is not an object has nothing to extract. *)
Lemma extract_non_object (v : value) (fallback : string) :
  (forall entries, v <> VObj entries) ->
  ErrorDetail.extractErrorDetail v fallback = fallback.
Proof.
  intros Hv. unfold ErrorDetail.extractErrorDetail.
  destruct v as [| |[]|n|text|items|entries]; simpl; try reflexivity.
  - destruct (negb (n =? 0)); reflexivity.
  - destruct (negb (String.eqb text "")); reflexivity.
  - now destruct (Hv entries).
Qed.

(** X1. A response outside 2xx makes the acquisition fail with the message
    extracted from its payload, recorded in the session slot of a mounted
    panel; with an empty body, a body that is not JSON, or JSON that is
    not an object, the message is the status text. *)
Theorem session_http_failure (w : world) (st : state) (currentSecret : value)
    (r : response) (text : string) :
  isWorkflowConfigured w = true ->
  fetch w (session_request w) = Ok r ->
  raw r = Ok text ->
  ok r = false ->
  let detail := ErrorDetail.extractErrorDetail (parse_body w text) (statusText r) in
  let run := getClientSecret currentSecret w st in
  fst run = Throw (Error detail)
  /\ session (errors (snd run))
     = (if isMounted st then Some detail else session (errors st))
  /\ (text = "" \/ JSON_parse w text = None
      \/ (exists v, JSON_parse w text = Some v /\ forall entries, v <> VObj entries) ->
      detail = statusText r).
Proof.
  intros Hw Hfetch Hraw Hok detail run. subst run.
  rewrite (getClientSecret_configured w st currentSecret Hw).
  unfold session_attempt, settled_state. rewrite Hfetch, Hraw, Hok. cbv zeta.
  split; [reflexivity|]. split; [destruct (isMounted st); reflexivity|].
  subst detail. unfold parse_body.
  intros [-> | [Hparse | (v & Hparse & Hv)]].
  - reflexivity.
  - rewrite Hparse. destruct (negb (String.eqb text "")); reflexivity.
  - rewrite Hparse. destruct (negb (String.eqb text "")); [|reflexivity].
    now apply extract_non_object.
Qed.

Lemma session_http_failure_witness :
  let w := Examples.world_of (Some "wf_68e0")
             (Examples.replied 401 "Unauthorized" "(body)")
             (Some (VObj [("error", VObj [("message", VStr "Invalid API key")])])) in
  let run := getClientSecret VNull w (initial w) in
  fst run = Throw (Error "Invalid API key")
  /\ session (errors (snd run)) = Some "Invalid API key".
Proof.
  pose (w := Examples.world_of (Some "wf_68e0")
               (Examples.replied 401 "Unauthorized" "(body)")
               (Some (VObj [("error", VObj [("message", VStr "Invalid API key")])]))).
  destruct (session_http_failure w (initial w) VNull
              (mkResponse 401 "Unauthorized" (Ok "(body)")) "(body)"
              eq_refl eq_refl eq_refl eq_refl) as (Hr & Hs & _).
  split; [exact Hr|exact Hs].
Defined.

(** X2. When the request or the reading of the body is rejected, the
    acquisition fails with the message of the [Error] that was thrown, or
    with the fixed message when something else was thrown; a mounted
    panel records it in the session slot, and the one request was made. *)
Theorem session_network_failure (w : world) (st : state) (currentSecret : value)
    (e : exn) :
  isWorkflowConfigured w = true ->
  fetch w (session_request w) = Throw e
  \/ (exists r, fetch w (session_request w) = Ok r /\ raw r = Throw e) ->
  let detail := match e with
                | Error msg => msg
                | Thrown _ => "Unable to start ChatKit session."
                end in
  let run := getClientSecret currentSecret w st in
  fst run = Throw (Error detail)
  /\ session (errors (snd run))
     = (if isMounted st then Some detail else session (errors st))
  /\ trace (snd run) = (trace st ++ [Fetch (session_request w)])%list.
Proof.
  intros Hw Hfail detail run. subst run.
  rewrite (getClientSecret_configured w st currentSecret Hw).
  assert (session_attempt w = Throw e) as ->.
  { unfold session_attempt.
    destruct Hfail as [-> | (r & -> & ->)]; reflexivity. }
  unfold settled_state. cbv zeta.
  split; [reflexivity|].
  destruct (isMounted st); split; reflexivity.
Qed.

Lemma session_network_failure_witness :
  let w := Examples.world_of (Some "wf_68e0") (Throw (Thrown (VStr "aborted"))) None in
  let run := getClientSecret VNull w (initial w) in
  fst run = Throw (Error "Unable to start ChatKit session.")
  /\ session (errors (snd run)) = Some "Unable to start ChatKit session.".
Proof.
  pose (w := Examples.world_of (Some "wf_68e0") (Throw (Thrown (VStr "aborted"))) None).
  destruct (session_network_failure w (initial w) VNull (Thrown (VStr "aborted")) eq_refl)
    as (Hr & Hs & _).
  - left. reflexivity.
  - split; [exact Hr|exact Hs].
Defined.

(** X3. However a credential request ends, a mounted panel has the
    initializing flag down afterwards, except on a refresh (a truthy
    current secret) with the workflow configured, which leaves the flag
    alone; after teardown the flag is never touched. *)
Theorem initializing_flag_settles (w : world) (st : state) (currentSecret : value) :
  isInitializingSession (snd (getClientSecret currentSecret w st))
  = if isMounted st then
      if isWorkflowConfigured w && truthy currentSecret
      then isInitializingSession st else false
    else isInitializingSession st.
Proof.
  destruct (isWorkflowConfigured w) eqn:Hw.
  - rewrite (getClientSecret_configured w st currentSecret Hw).
    unfold settled_state. simpl.
    destruct (isMounted st); reflexivity.
  - rewrite (getClientSecret_unconfigured w st currentSecret Hw). simpl.
    destruct (isMounted st); reflexivity.
Qed.

(** X4. A credential request never touches the processed facts, the script
    slot, the script status, the widget key or the refs; it makes the one
    request to the session endpoint when the workflow is configured and
    none otherwise, and nothing else leaves the panel. *)
Theorem getClientSecret_frame (w : world) (st : state) (currentSecret : value) :
  let st' := snd (getClientSecret currentSecret w st) in
  processedFacts st' = processedFacts st
  /\ script (errors st') = script (errors st)
  /\ scriptStatus st' = scriptStatus st
  /\ widgetInstanceKey st' = widgetInstanceKey st
  /\ kitRef st' = kitRef st
  /\ isMounted st' = isMounted st
  /\ trace st'
     = (trace st ++ if isWorkflowConfigured w then [Fetch (session_request w)] else [])%list.
Proof.
  destruct (isWorkflowConfigured w) eqn:Hw; cbv zeta.
  - rewrite (getClientSecret_configured w st currentSecret Hw).
    unfold settled_state. simpl.
    destruct (isMounted st) eqn:Hm; simpl; rewrite ?Hm; repeat split; reflexivity.
  - rewrite (getClientSecret_unconfigured w st currentSecret Hw). simpl.
    destruct (isMounted st) eqn:Hm; simpl; rewrite ?Hm, ?app_nil_r;
      repeat split; reflexivity.
Qed.

(** X18. After a first-load credential request on a mounted panel with the
    workflow configured, the loading message is gone, the widget is hidden
    exactly when a non-empty blocking error is set, and the blocking error
    is the script error if there is one and else the failure message of
    the request, if it failed. *)
Theorem render_after_first_load (w : world) (st : state) (currentSecret : value) :
  isMounted st = true ->
  isWorkflowConfigured w = true ->
  truthy currentSecret = false ->
  let run := getClientSecret currentSecret w st in
  fallbackMessage (snd run) = None
  /\ widget_hidden (snd run) = is_set (blockingError (errors (snd run)))
  /\ blockingError (errors (snd run))
     = match script (errors st) with
       | Some m => Some m
       | None =>
           match fst run with
           | Ok _ => None
           | Throw e => Some (failure_message e)
           end
       end.
Proof.
  intros Hm Hw Hcs run. subst run.
  rewrite (getClientSecret_configured w st currentSecret Hw).
  unfold settled_state, fallbackMessage, widget_hidden, blockingError.
  rewrite Hm, Hcs. simpl.
  destruct (script (errors st)) as [m|]; simpl.
  - repeat split; try reflexivity.
    + now rewrite orb_true_r.
    + now rewrite orb_false_r.
  - destruct (session_attempt w) as [secret|[msg|v]]; simpl;
      repeat split; try reflexivity; try (now rewrite orb_true_r);
      now rewrite orb_false_r.
Qed.

Lemma render_after_first_load_witness :
  let w := Examples.session_world (VObj [("client_secret", VStr "ek_123")]) in
  let run := getClientSecret VNull w (initial w) in
  widget_hidden (initial w) = true
  /\ fallbackMessage (snd run) = None
  /\ widget_hidden (snd run) = false.
Proof.
  pose (w := Examples.session_world (VObj [("client_secret", VStr "ek_123")])).
  destruct (render_after_first_load w (initial w) VNull eq_refl eq_refl eq_refl)
    as (Hf & Hh & Hb).
  split; [reflexivity|]. split; [exact Hf|].
  refine (eq_trans Hh _). refine (eq_trans (f_equal is_set Hb) _). reflexivity.
Defined.

End SessionFacts.

(** ** Lifecycle of the panel *)

Module LifecycleFacts.

Import Panel Render Settle PanelFacts.

(** X5. After teardown the callbacks that check liveness (the script
    effect and signals, the timer, the configuration effect, a credential
    request) change nothing of the component: only the trace can grow. *)
Theorem teardown_freezes (w : world) (st : state) (ev : event) :
  isMounted st = false ->
  guarded ev = true ->
  component (after (handler ev) w st) = component st.
Proof.
  intros Hm Hev. destruct ev; try discriminate; simpl handler.
  - unfold after, ignore, scriptEffect, handleLoaded, bind, asks, gets, ret.
    destruct (isBrowser w); simpl; [|reflexivity].
    destruct (customElementDefined w); simpl; rewrite ?Hm; simpl; [reflexivity|].
    destruct (scriptStatus st); reflexivity.
  - unfold after, handleLoaded, bind, gets, ret. rewrite Hm. reflexivity.
  - unfold after, handleError, bind, gets, ret. rewrite Hm. reflexivity.
  - unfold after, scriptTimeout, handleError, bind, asks, gets, ret.
    destruct (customElementDefined w); simpl; rewrite ?Hm; reflexivity.
  - unfold after, configEffect, bind, asks, gets, ret. rewrite Hm.
    destruct (isWorkflowConfigured w); reflexivity.
  - rewrite after_ignore. unfold after.
    destruct (isWorkflowConfigured w) eqn:Hw.
    + rewrite (SessionFacts.getClientSecret_configured w st currentSecret Hw).
      unfold settled_state. simpl. rewrite Hm. reflexivity.
    + rewrite (SessionFacts.getClientSecret_unconfigured w st currentSecret Hw).
      simpl. rewrite Hm. reflexivity.
Qed.

Lemma teardown_freezes_witness :
  let w := Examples.session_world (VObj [("client_secret", VStr "ek_123")]) in
  let st := Examples.torn_down (Examples.failed_once w) w in
  component (after (handler (GetClientSecret VNull)) w st) = component st.
Proof.
  apply (teardown_freezes
           (Examples.session_world (VObj [("client_secret", VStr "ek_123")])));
    reflexivity.
Defined.

Ltac mounted_leaf :=
  apply preserves_modify; intros ? Hkept; first [exact Hkept | reflexivity].

Lemma unmounted_handler (ev : event) :
  preserves (fun st => isMounted st = false) (handler ev).
Proof.
  destruct ev; simpl; unfold ignore, onAction, onClientTool;
    preserve; mounted_leaf.
Qed.

(** X6. Teardown is final: no callback raises the liveness flag again,
    whatever events follow. *)
Theorem unmount_is_final (evs : list (world * event)) (st : state) :
  isMounted st = false -> isMounted (run_events evs st) = false.
Proof.
  revert st. induction evs as [|[w ev] evs IH]; intros st Hm; [exact Hm|].
  simpl. apply IH. now apply unmounted_handler.
Qed.

Lemma unmount_is_final_witness :
  let w := Examples.unconfigured in
  isMounted
    (run_events ((w, ResetChat) :: (w, ScriptLoaded) :: Examples.busy_thread)
       (Examples.torn_down (initial w) w)) = false.
Proof.
  apply (unmount_is_final
           ((Examples.unconfigured, ResetChat) :: (Examples.unconfigured, ScriptLoaded)
            :: Examples.busy_thread)).
  reflexivity.
Defined.

Lemma no_integration_setErrorState (updates : ErrorUpdates) :
  set_integration updates = None \/ set_integration updates = Some None ->
  preserves (fun st => integration (errors st) = None) (setErrorState updates).
Proof.
  intros Hu. apply preserves_modify. intros st H. simpl.
  destruct Hu as [-> | ->]; simpl; [exact H|reflexivity].
Qed.

Ltac integration_leaf :=
  first
    [ apply no_integration_setErrorState; simpl; auto
    | apply preserves_modify; intros ? Hkept; first [exact Hkept | reflexivity] ].

Lemma no_integration_handler (ev : event) :
  preserves (fun st => integration (errors st) = None) (handler ev).
Proof.
  destruct ev; simpl; unfold ignore, onAction, onClientTool;
    preserve; integration_leaf.
Qed.

(** X7. The integration slot is never written with a message: in every
    reachable state it is empty, so the blocking error is the script error
    or else the session error. *)
Theorem integration_never_set (st : state) :
  reachable st ->
  integration (errors st) = None
  /\ blockingError (errors st)
     = match script (errors st) with
       | Some m => Some m
       | None => session (errors st)
       end.
Proof.
  intros Hreach.
  assert (integration (errors st) = None) as Hnone.
  { induction Hreach as [w|w ev st Hreach IH]; [reflexivity|].
    now apply no_integration_handler. }
  split; [exact Hnone|].
  unfold blockingError. rewrite Hnone.
  destruct (script (errors st)); [reflexivity|].
  destruct (session (errors st)); reflexivity.
Qed.

Lemma integration_never_set_witness :
  let w := Examples.session_world (VObj []) in
  let st := after (handler ResponseStarted) w
              (after (handler (GetClientSecret VNull)) w (initial w)) in
  integration (errors st) = None
  /\ blockingError (errors st) = Some missing_secret.
Proof.
  destruct (integration_never_set
              (after (handler ResponseStarted) (Examples.session_world (VObj []))
                 (after (handler (GetClientSecret VNull))
                    (Examples.session_world (VObj []))
                    (initial (Examples.session_world (VObj []))))))
    as [Hi Hb].
  - repeat constructor.
  - split; [exact Hi|exact Hb].
Defined.

Lemma config_kept_setErrorState (updates : ErrorUpdates) :
  set_session updates = None \/ set_session updates = Some (Some configuration_error) ->
  set_retryable updates = None \/ set_retryable updates = Some false ->
  preserves config_recorded (setErrorState updates).
Proof.
  intros Hs Hr. apply preserves_modify. intros st [Hsession Hretry].
  unfold config_recorded. simpl.
  destruct Hs as [-> | ->], Hr as [-> | ->]; simpl; auto.
Qed.

Ltac config_leaf :=
  first
    [ apply config_kept_setErrorState; simpl; auto
    | apply preserves_modify; intros ? Hkept; exact Hkept ].

Lemma config_kept_handler (w : world) (ev : event) (st : state) :
  isWorkflowConfigured w = false ->
  is_reset ev = false ->
  config_recorded st ->
  config_recorded (after (handler ev) w st).
Proof.
  intros Hw Hev Hst.
  assert ((exists currentSecret, ev = GetClientSecret currentSecret)
          \/ preserves config_recorded (handler ev)) as [[currentSecret ->]|Hkeeps].
  { destruct ev; try discriminate; try (left; eauto; fail); right; simpl;
      unfold ignore, onAction, onClientTool; preserve; config_leaf. }
  - simpl handler. rewrite after_ignore. unfold after.
    rewrite (SessionFacts.getClientSecret_unconfigured w st currentSecret Hw). simpl.
    destruct (isMounted st); [split; reflexivity|exact Hst].
  - now apply Hkeeps.
Qed.

(** X8. With the workflow not configured, once the configuration effect
    has run on a mounted panel the session slot holds the configuration
    message, not retryable, through every later event short of a manual
    restart. *)
Theorem config_error_sticks (w : world) (st : state) (evs : list (world * event)) :
  isWorkflowConfigured w = false ->
  isMounted st = true ->
  Forall (fun we => isWorkflowConfigured (fst we) = false /\ is_reset (snd we) = false) evs ->
  let st' := run_events evs (after configEffect w st) in
  session (errors st') = Some configuration_error
  /\ retryable (errors st') = false.
Proof.
  intros Hw Hm Hevs st'. subst st'. fold (config_recorded (run_events evs (after configEffect w st))).
  assert (config_recorded (after configEffect w st)) as Hstart.
  { unfold after, configEffect, bind, asks, gets. rewrite Hw, Hm. split; reflexivity. }
  revert Hstart. generalize (after configEffect w st). clear st Hm.
  induction Hevs as [|[w' ev] evs [Hw' Hev] Hevs IH]; intros st Hst; [exact Hst|].
  simpl. apply IH. now apply config_kept_handler.
Qed.

Lemma config_error_sticks_witness :
  let w := Examples.unconfigured in
  let st' := run_events ((w, Unmount) :: Examples.busy_thread)
               (after configEffect w (initial w)) in
  session (errors st') = Some configuration_error
  /\ retryable (errors st') = false.
Proof.
  apply (config_error_sticks Examples.unconfigured (initial Examples.unconfigured)
           ((Examples.unconfigured, Unmount) :: Examples.busy_thread));
    [reflexivity|reflexivity|].
  repeat (constructor; [split; reflexivity|]). constructor.
Defined.

(** *** Facts of a thread *)

Lemma counted_modify (base : string -> nat) (f : state -> state) :
  (forall st, processedFacts (f st) = processedFacts st) ->
  (forall st id, saves_of id (trace (f st)) = saves_of id (trace st)) ->
  preserves (fun st => thread_counted base st /\ "" ∉ processedFacts st) (modify f).
Proof.
  intros Hfacts Htrace. apply preserves_modify. intros st [Hcount Hempty].
  split; [|now rewrite Hfacts].
  intros id. rewrite Hfacts, Htrace. apply Hcount.
Qed.

Ltac counted_leaf :=
  apply counted_modify;
  [ intros; reflexivity
  | intros; simpl; rewrite ?saves_of_app; simpl; lia ].

Lemma counted_onClientTool (base : string -> nat) (inv : invocation) :
  preserves (fun st => thread_counted base st /\ "" ∉ processedFacts st)
    (onClientTool inv).
Proof.
  intros w st [Hcount Hempty].
  unfold after, onClientTool, bind, gets, emit, modify, ret.
  destruct (String.eqb (name inv) "switch_theme").
  - assert (forall e, (forall a, e <> WidgetAction a) ->
              thread_counted base (with_effect e st)) as Hother.
    { intros e He id. simpl. rewrite saves_of_app.
      destruct e; simpl; try (rewrite Nat.add_0_r; apply Hcount).
      now destruct (He a). }
    destruct (get (VObj (params inv)) "theme"); simpl; auto.
    destruct (String.eqb s "light" || String.eqb s "dark"); simpl;
      [split; [apply Hother; discriminate|exact Hempty]|auto].
  - destruct (String.eqb (name inv) "record_fact"); simpl; auto.
    destruct (String.eqb_spec (fact_id (params inv)) "") as [Hid|Hid]; simpl; auto.
    case_bool_decide as Hseen; simpl; auto.
    split.
    2: { rewrite elem_of_union, elem_of_singleton.
         intros [Hin|Heq]; [exact (Hempty Hin)|exact (Hid (eq_sym Heq))]. }
    intros id. unfold with_effect, with_processedFacts. cbn [trace processedFacts].
    rewrite saves_of_app. cbn [saves_of factId]. rewrite (Hcount id).
    destruct (String.eqb_spec (fact_id (params inv)) id) as [<-|Hne].
    + rewrite bool_decide_false by exact Hseen.
      rewrite bool_decide_true
        by (apply elem_of_union; right; now apply elem_of_singleton).
      lia.
    + rewrite (bool_decide_ext (id ∈ processedFacts st ∪ {[fact_id (params inv)]})
                 (id ∈ processedFacts st)).
      * lia.
      * rewrite elem_of_union, elem_of_singleton.
        split; [intros [Hin|Heq]; [assumption|congruence]|now left].
Qed.

Lemma counted_handler (base : string -> nat) (ev : event) :
  same_thread ev = true ->
  preserves (fun st => thread_counted base st /\ "" ∉ processedFacts st) (handler ev).
Proof.
  intros Hev.
  destruct ev; try discriminate; simpl;
    try (unfold ignore, onAction; preserve; counted_leaf).
  unfold ignore. apply preserves_bind; [apply counted_onClientTool|].
  intros ?. apply preserves_ret.
Qed.

(** X13. Within a thread, whatever happens, every fact is saved at most
    once: since the thread change, the save callback ran once for each
    identifier in the processed set and not at all for any other, and the
    empty identifier is never in the set. *)
Theorem thread_save_accounting (w : world) (st0 : state) (evs : list (world * event)) :
  Forall (fun we => same_thread (snd we) = true) evs ->
  let st := run_events evs (after onThreadChange w st0) in
  (forall id,
      saves_of id (trace st)
      = (saves_of id (trace st0)
         + if bool_decide (id ∈ processedFacts st) then 1 else 0)%nat)
  /\ "" ∉ processedFacts st.
Proof.
  intros Hevs st. subst st.
  assert (thread_counted (fun id => saves_of id (trace st0)) (after onThreadChange w st0)
          /\ "" ∉ processedFacts (after onThreadChange w st0)) as Hstart.
  { split; [|apply not_elem_of_empty].
    intros id. unfold after, onThreadChange, modify. simpl.
    rewrite bool_decide_false by apply not_elem_of_empty. lia. }
  revert Hstart. generalize (after onThreadChange w st0).
  induction Hevs as [|[w' ev] evs Hev Hevs IH]; intros st Hst; [exact Hst|].
  simpl. apply IH. now apply counted_handler.
Qed.

Lemma thread_save_accounting_witness :
  let w := Examples.unconfigured in
  let st := run_events Examples.busy_thread (after onThreadChange w (initial w)) in
  saves_of "f1" (trace st)
  = (0 + if bool_decide ("f1" ∈ processedFacts st) then 1 else 0)%nat.
Proof.
  destruct (thread_save_accounting Examples.unconfigured (initial Examples.unconfigured)
              Examples.busy_thread) as [Hcount _].
  - repeat constructor.
  - exact (Hcount "f1").
Defined.

(** *** Manual restart and script signals *)

(** X14. A manual restart, from any state: the error state is the initial
    one, so no blocking error is left and the loading message is shown
    over the hidden widget; the widget key went up by one; the liveness
    flag is as before; and every fact with a non-empty identifier is
    saved again by [record_fact], whether it was processed before or
    not. *)
Theorem restart_clears (w : world) (st : state) (p : list (string * value)) :
  let st' := after handleResetChat w st in
  errors st' = createInitialErrors
  /\ blockingError (errors st') = None
  /\ fallbackMessage st' = Some "Loading assistant session..."
  /\ widget_hidden st' = true
  /\ widgetInstanceKey st' = widgetInstanceKey st + 1
  /\ isMounted st' = isMounted st
  /\ (fact_id p <> "" ->
      trace (after (onClientTool (mkInvocation "record_fact" p)) w st')
      = (trace st
         ++ [WidgetAction (mkFactAction (fact_id p)
                             (trim (collapse_spaces (fact_text p))))])%list).
Proof.
  intros st'.
  assert (st' = with_widgetInstanceKey (fun prev => prev + 1)
                  (with_errors (fun _ => createInitialErrors)
                     (with_isInitializingSession true
                        ((if isBrowser w
                          then with_scriptStatus
                                 (if customElementDefined w then ready else pending)
                          else fun st => st)
                           (with_processedFacts (fun _ => ∅) st))))) as ->.
  { subst st'.
    unfold after, handleResetChat, setScriptStatus, setIsInitializingSession, setErrors,
      setWidgetInstanceKey, bind, asks, when, modify, ret.
    simpl. destruct (isBrowser w); reflexivity. }
  repeat match goal with
         | |- _ /\ _ => split
         end; try reflexivity; try (destruct (isBrowser w); reflexivity).
  intros Hid. unfold after. rewrite record_fact_run.
  apply String.eqb_neq in Hid. rewrite Hid.
  rewrite bool_decide_false.
  - destruct (isBrowser w); reflexivity.
  - destruct (isBrowser w); apply not_elem_of_empty.
Qed.

Lemma restart_clears_witness :
  let w := Examples.unconfigured in
  let first := after (onClientTool (Examples.record_fact "f1" "likes tea")) w (initial w) in
  let st' := after handleResetChat w first in
  trace (after (onClientTool (Examples.record_fact "f1" "likes tea")) w st')
  = [WidgetAction (mkFactAction "f1" "likes tea");
     WidgetAction (mkFactAction "f1" "likes tea")].
Proof.
  destruct (restart_clears Examples.unconfigured
              (after (onClientTool (Examples.record_fact "f1" "likes tea"))
                 Examples.unconfigured (initial Examples.unconfigured))
              [("fact_id", VStr "f1"); ("fact_text", VStr "likes tea")])
    as (_ & _ & _ & _ & _ & _ & Hsave).
  refine (eq_trans (Hsave _) _); [discriminate|reflexivity].
Defined.

(** X15. On a mounted panel a script error hides the widget behind the
    message built from its detail ([unknown error] when there is none),
    whatever the session slot holds, and lowers the initializing flag; a
    load signal that comes later removes the script error and sets the
    status to ready, and leaves the session slot and the lowered flag as
    they are. The timer does nothing when the element is registered by
    then. *)
Theorem script_error_then_load (w : world) (st : state) (detail : value) :
  isMounted st = true ->
  let broken := after (handleError detail) w st in
  let loaded := after handleLoaded w broken in
  blockingError (errors broken)
  = Some ("Error: " ++ to_string (nullish detail (VStr "unknown error")))
  /\ widget_hidden broken = true
  /\ scriptStatus broken = failed
  /\ isInitializingSession broken = false
  /\ session (errors broken) = session (errors st)
  /\ script (errors loaded) = None
  /\ scriptStatus loaded = ready
  /\ session (errors loaded) = session (errors st)
  /\ isInitializingSession loaded = false
  /\ (customElementDefined w = true -> after scriptTimeout w st = st).
Proof.
  intros Hm broken loaded. subst loaded broken.
  unfold after, handleLoaded, handleError, scriptTimeout, setScriptStatus,
    setIsInitializingSession, setErrorState, bind, asks, gets, modify, ret.
  rewrite Hm. simpl. rewrite Hm. simpl.
  repeat match goal with
         | |- _ /\ _ => split
         end; try reflexivity.
  intros ->. reflexivity.
Qed.

Lemma script_error_then_load_witness :
  let w := Examples.unconfigured in
  let broken := after (handleError VUndefined) w (initial w) in
  blockingError (errors broken) = Some "Error: unknown error"
  /\ script (errors (after handleLoaded w broken)) = None
  /\ after scriptTimeout w (initial w) = initial w.
Proof.
  destruct (script_error_then_load Examples.unconfigured (initial Examples.unconfigured)
              VUndefined eq_refl) as (Hb & _ & _ & _ & _ & Hl & _ & _ & _ & Ht).
  split; [exact Hb|]. split; [exact Hl|exact (Ht eq_refl)].
Defined.

End LifecycleFacts.

(** ** Widget actions and client tools *)

Module ActionFacts.

Import Panel Render Settle PanelFacts.

Ltac component_leaf :=
  apply preserves_modify; intros ? Hkept; exact Hkept.

Lemma onAction_component (c : _) (act : action) (widgetItem : value) :
  preserves (fun st => component st = c) (onAction act widgetItem).
Proof. unfold onAction. preserve; component_leaf. Qed.

(** X9. A widget action never changes the component: errors, flags, facts
    and refs stay as they are, whatever the backend and the element do.
    When no [sendUserMessage] call rejects, every action, recognised or
    not and whatever the backend answered, returns a result whose [ok] is
    true. A tag other than the two recognised ones returns [{ok: true}]
    with no request and no message. *)
Theorem onAction_absorbs (w : world) (st : state) (act : action) (widgetItem : value) :
  component (after (onAction act widgetItem) w st) = component st
  /\ ((forall m, sendUserMessage w m = None) ->
      exists result,
        fst (onAction act widgetItem w st) = Ok result /\ get result "ok" = VBool true)
  /\ (action_type act <> "question.submit" ->
      action_type act <> "skin.survey.submit" ->
      onAction act widgetItem w st = (Ok (VObj [("ok", VBool true)]), st)).
Proof.
  split; [now apply onAction_component|]. split.
  - intros Hsend.
    unfold onAction, try_catch, do_fetch, do_sendUserMessage, bind, asks, gets, when,
      emit, modify, ret, throw.
    cbv zeta.
    destruct (String.eqb (action_type act) "question.submit").
    + simpl.
      destruct (fetch w _) as [res|e]; simpl; [destruct (ok res); simpl|];
        destruct (can_send (kitRef st)); simpl; rewrite ?Hsend; simpl; eauto.
    + destruct (String.eqb (action_type act) "skin.survey.submit"); [|simpl; eauto].
      simpl.
      destruct (fetch w _) as [res|e]; simpl; [destruct (ok res); simpl|];
        destruct (can_send (kitRef st)); simpl; rewrite ?Hsend; simpl; eauto.
  - intros Hquiz Hsurvey. unfold onAction. cbv zeta.
    apply String.eqb_neq in Hquiz, Hsurvey. rewrite Hquiz, Hsurvey. reflexivity.
Qed.

Lemma onAction_absorbs_witness :
  let w := Examples.world_of (Some "wf_68e0") Examples.offline None in
  (exists result,
      fst (onAction (ActionName "skin.survey.submit") VNull w (Examples.attached w))
      = Ok result /\ get result "ok" = VBool true)
  /\ onAction (ActionName "other.tag") VNull w (Examples.attached w)
     = (Ok (VObj [("ok", VBool true)]), Examples.attached w).
Proof.
  pose (w := Examples.world_of (Some "wf_68e0") Examples.offline None).
  destruct (onAction_absorbs w (Examples.attached w) (ActionName "skin.survey.submit") VNull)
    as (_ & Hok & _).
  destruct (onAction_absorbs w (Examples.attached w) (ActionName "other.tag") VNull)
    as (_ & _ & Hother).
  split; [apply Hok; reflexivity|apply Hother; discriminate].
Defined.

(** X10. A survey dispatch makes one request to the survey endpoint, with
    the normalized record as body. When the element exposes
    [sendUserMessage] and the call resolves, it has sent, as a reply to
    the widget item, the summary on a 2xx response and the survey apology
    on a rejected request or any other status; without [sendUserMessage]
    nothing is sent. The result is [{ok: true}] either way. *)
Theorem survey_dispatch (w : world) (st : state) (act : action) (widgetItem : value) :
  action_type act = "skin.survey.submit" ->
  let survey := survey_of (action_payload act) in
  let req := mkRequest "/api/survey/submit" "POST" (survey_json survey) in
  let backend_ok := match fetch w req with
                    | Ok res => ok res
                    | Throw _ => false
                    end in
  let saved := mkMessage (summary survey) (get widgetItem "id") in
  let apology := mkMessage survey_apology (get widgetItem "id") in
  let run := onAction act widgetItem w st in
  (can_send (kitRef st) = true ->
   sendUserMessage w saved = None ->
   sendUserMessage w apology = None ->
   fst run = Ok (VObj [("ok", VBool true)])
   /\ trace (snd run)
      = (trace st ++ [Fetch req; SendUserMessage (if backend_ok then saved else apology)])%list)
  /\ (can_send (kitRef st) = false ->
      fst run = Ok (VObj [("ok", VBool true)])
      /\ trace (snd run) = (trace st ++ [Fetch req])%list).
Proof.
  intros Htype survey req backend_ok saved apology run.
  subst run. unfold onAction. cbv zeta. rewrite Htype.
  change (String.eqb "skin.survey.submit" "question.submit") with false.
  change (String.eqb "skin.survey.submit" "skin.survey.submit") with true. cbv iota.
  fold survey. fold req saved apology.
  split.
  - intros Hsend Hs Ha. subst backend_ok.
    unfold try_catch, do_fetch, do_sendUserMessage, bind, asks, gets, when, emit,
      modify, ret, throw.
    simpl. rewrite Hsend.
    destruct (fetch w req) as [res|e]; simpl.
    + destruct (ok res); simpl; [rewrite Hs|rewrite Ha]; simpl;
        rewrite <- app_assoc; split; reflexivity.
    + rewrite Ha. simpl. rewrite <- app_assoc. split; reflexivity.
  - intros Hsend.
    unfold try_catch, do_fetch, do_sendUserMessage, bind, asks, gets, when, emit,
      modify, ret, throw.
    simpl. rewrite Hsend.
    destruct (fetch w req) as [res|e]; simpl; [destruct (ok res)|]; simpl;
      split; reflexivity.
Qed.

Lemma survey_dispatch_witness :
  let w := Examples.world_of (Some "wf_68e0") (Examples.replied 200 "OK" "") None in
  let act := ActionObject (VStr "skin.survey.submit")
               (Some [("q1", VStr "oily"); ("q4_none", VBool true)]) in
  let run := onAction act Examples.widget_item w (Examples.attached w) in
  fst run = Ok (VObj [("ok", VBool true)])
  /\ trace (snd run)
     = [Fetch (mkRequest "/api/survey/submit" "POST"
                 (survey_json (survey_of [("q1", VStr "oily"); ("q4_none", VBool true)])));
        SendUserMessage
          (mkMessage (summary (survey_of [("q1", VStr "oily"); ("q4_none", VBool true)]))
             (VStr "item_1"))].
Proof.
  pose (w := Examples.world_of (Some "wf_68e0") (Examples.replied 200 "OK" "") None).
  destruct (survey_dispatch w (Examples.attached w)
              (ActionObject (VStr "skin.survey.submit")
                 (Some [("q1", VStr "oily"); ("q4_none", VBool true)]))
              Examples.widget_item eq_refl) as (Hsent & _).
  exact (Hsent eq_refl eq_refl eq_refl).
Defined.

Lemma nullish_cases (a b : value) :
  nullish a b = if is_nullish a then b else a.
Proof. destruct a; reflexivity. Qed.

(** X11. Where a quiz dispatch takes its fields from: [quizId] and
    [answer] of the payload win whenever they are not nullish, even when
    falsy; otherwise [quizId] is the widget item's, and [answer] is read
    from the widget item's [form] when that is not nullish (the payload's
    [form] is then not consulted) and from the payload's [form] otherwise.
    Neither field is ever [undefined]: what is found nowhere is [null]. *)
Theorem quiz_fields_precedence (act : action) (widgetItem : value) :
  let payload := VObj (action_payload act) in
  let quizId := action_quizId act widgetItem in
  let answer := action_answer act widgetItem in
  (is_nullish (get payload "quizId") = false -> quizId = get payload "quizId")
  /\ (is_nullish (get payload "quizId") = true ->
      quizId = nullish (get widgetItem "quizId") VNull)
  /\ (is_nullish (get payload "answer") = false -> answer = get payload "answer")
  /\ (is_nullish (get payload "answer") = true ->
      is_nullish (get widgetItem "form") = false ->
      answer = nullish (get (get widgetItem "form") "answer") VNull)
  /\ (is_nullish (get payload "answer") = true ->
      is_nullish (get widgetItem "form") = true ->
      answer = nullish (get (get payload "form") "answer") VNull)
  /\ quizId <> VUndefined
  /\ answer <> VUndefined.
Proof.
  intros payload quizId answer. subst quizId answer.
  unfold action_quizId, action_answer, action_form. fold payload.
  rewrite !nullish_cases.
  repeat match goal with
         | |- _ /\ _ => split
         end.
  - intros ->. reflexivity.
  - intros ->. reflexivity.
  - intros ->. reflexivity.
  - intros -> ->. reflexivity.
  - intros -> ->.
    destruct (is_nullish (get payload "form")) eqn:Hform; [|reflexivity].
    destruct (get payload "form"); try discriminate; reflexivity.
  - destruct (get payload "quizId"); simpl; try discriminate;
      destruct (get widgetItem "quizId"); discriminate.
  - destruct (get payload "answer"); simpl; try discriminate;
      destruct (get widgetItem "form"); simpl;
      repeat match goal with
             | |- context [is_nullish ?v] => destruct v; simpl
             | |- context [lookup_entry ?k ?es] => destruct (lookup_entry k es); simpl
             end;
      discriminate.
Qed.

Lemma quiz_fields_precedence_witness :
  let act := ActionObject (VStr "question.submit")
               (Some [("answer", VStr ""); ("form", VObj [("answer", VStr "C")])]) in
  let widgetItem := VObj [("quizId", VStr "Q7"); ("form", VObj [("answer", VStr "B")])] in
  action_quizId act widgetItem = VStr "Q7"
  /\ action_answer act widgetItem = VStr ""
  /\ action_answer (ActionName "question.submit") (VObj [("form", VObj [])]) = VNull.
Proof.
  destruct (quiz_fields_precedence
              (ActionObject (VStr "question.submit")
                 (Some [("answer", VStr ""); ("form", VObj [("answer", VStr "C")])]))
              (VObj [("quizId", VStr "Q7"); ("form", VObj [("answer", VStr "B")])]))
    as (_ & Hq & Ha & _).
  destruct (quiz_fields_precedence (ActionName "question.submit") (VObj [("form", VObj [])]))
    as (_ & _ & _ & Hform & _).
  split; [exact (Hq eq_refl)|]. split; [exact (Ha eq_refl)|exact (Hform eq_refl eq_refl)].
Defined.

(** X12. A client tool never throws and never touches the errors, the
    flags, the script status, the key or the refs. [switch_theme] reports
    success exactly when [theme] is the string [light] or [dark], and
    then asks for that scheme once; with any other value it reports
    failure and does nothing. A tool that is neither [switch_theme] nor
    [record_fact] reports failure and does nothing. *)
Theorem client_tool_outcomes (w : world) (st : state) (inv : invocation) :
  let run := onClientTool inv w st in
  let theme := get (VObj (params inv)) "theme" in
  (exists b, fst run = Ok (success b))
  /\ errors (snd run) = errors st
  /\ isInitializingSession (snd run) = isInitializingSession st
  /\ scriptStatus (snd run) = scriptStatus st
  /\ widgetInstanceKey (snd run) = widgetInstanceKey st
  /\ kitRef (snd run) = kitRef st
  /\ (name inv = "switch_theme" ->
      (fst run = Ok (success true) <-> theme = VStr "light" \/ theme = VStr "dark")
      /\ (forall scheme, theme = VStr scheme -> fst run = Ok (success true) ->
          snd run = with_effect (ThemeRequest scheme) st)
      /\ (fst run = Ok (success false) -> snd run = st))
  /\ (name inv <> "switch_theme" -> name inv <> "record_fact" ->
      run = (Ok (success false), st)).
Proof.
  intros run theme. subst run theme.
  unfold onClientTool, bind, gets, emit, modify, ret.
  assert (forall scheme,
            String.eqb scheme "light" || String.eqb scheme "dark" = true
            <-> VStr scheme = VStr "light" \/ VStr scheme = VStr "dark") as Hscheme.
  { intros scheme. rewrite orb_true_iff, !String.eqb_eq.
    split; intros [H|H]; [left|right|left|right]; congruence. }
  destruct (String.eqb_spec (name inv) "switch_theme") as [Hname|Hname].
  - destruct (get (VObj (params inv)) "theme") as [| |b|n|scheme|items|entries];
      [ | | | | specialize (Hscheme scheme);
                destruct (String.eqb scheme "light" || String.eqb scheme "dark") | | ];
      simpl;
      repeat match goal with
             | |- _ /\ _ => split
             | |- _ <-> _ => split
             | |- _ -> _ => intro
             | |- forall _, _ => intro
             end;
      eauto; try discriminate; try congruence;
      try match goal with
          | H : _ \/ _ |- _ => destruct H; discriminate
          end.
    + now apply Hscheme.
    + match goal with
      | H : _ \/ _ |- _ => apply Hscheme in H; discriminate
      end.
  - destruct (String.eqb_spec (name inv) "record_fact") as [Hfact|Hfact].
    + simpl.
      destruct (String.eqb (fact_id (params inv)) ""
                || bool_decide (fact_id (params inv) ∈ processedFacts st));
        simpl; repeat split; eauto; congruence.
    + simpl. repeat split; eauto; congruence.
Qed.

Lemma client_tool_outcomes_witness :
  let w := Examples.unconfigured in
  onClientTool (mkInvocation "switch_theme" [("theme", VStr "Dark")]) w (initial w)
  = (Ok (success false), initial w)
  /\ onClientTool (mkInvocation "open_door" []) w (initial w)
     = (Ok (success false), initial w).
Proof.
  pose (w := Examples.unconfigured).
  destruct (client_tool_outcomes w (initial w)
              (mkInvocation "switch_theme" [("theme", VStr "Dark")]))
    as (_ & _ & _ & _ & _ & _ & Htheme & _).
  destruct (client_tool_outcomes w (initial w) (mkInvocation "open_door" []))
    as (_ & _ & _ & _ & _ & _ & _ & Hother).
  split; [reflexivity|].
  apply Hother; discriminate.
Defined.

End ActionFacts.

(** ** The two endpoints, and the panel in front of them *)

Module RouteFacts.

Import Panel Replies.

(** X16. The survey endpoint never answers 500: it accepts exactly the
    bodies whose [q1], [q2] and [q3] are all truthy, and answers 400 with
    its fixed message to everything else, a body that is not JSON and the
    body [null] included. *)
Theorem survey_post_replies (json : outcome value) :
  (SurveyRoute.POST json = accepted
   <-> exists body,
         json = Ok body
         /\ truthy (get body "q1") = true
         /\ truthy (get body "q2") = true
         /\ truthy (get body "q3") = true)
  /\ (SurveyRoute.POST json = accepted
      \/ SurveyRoute.POST json = SurveyRoute.missing_required).
Proof.
  unfold SurveyRoute.POST.
  destruct json as [body|e]; simpl.
  - assert (get (if truthy body then body else VObj []) "q1" = get body "q1"
            /\ get (if truthy body then body else VObj []) "q2" = get body "q2"
            /\ get (if truthy body then body else VObj []) "q3" = get body "q3")
      as (-> & -> & ->).
    { destruct body as [| |[]|n|text|items|entries]; simpl; auto.
      - destruct (negb (n =? 0)); auto.
      - destruct (negb (String.eqb text "")); auto. }
    destruct (truthy (get body "q1")) eqn:H1, (truthy (get body "q2")) eqn:H2,
      (truthy (get body "q3")) eqn:H3; simpl;
      (split; [|auto]);
      (split;
       [ try discriminate; intros _; exists body; auto
       | intros (body' & Heq & H1' & H2' & H3'); injection Heq as <-;
         try reflexivity; congruence ]).
  - split; [|now right].
    split; [discriminate|]. intros (body & Heq & _). discriminate.
Qed.

Lemma survey_post_replies_witness :
  SurveyRoute.POST (Ok (VObj [("q1", VStr "oily"); ("q2", VStr "acne"); ("q3", VNum 3)]))
  = accepted
  /\ SurveyRoute.POST (Ok VNull) <> accepted.
Proof.
  destruct (survey_post_replies
              (Ok (VObj [("q1", VStr "oily"); ("q2", VStr "acne"); ("q3", VNum 3)])))
    as [[_ Hyes] _].
  destruct (survey_post_replies (Ok VNull)) as [[Hno _] _].
  split.
  - apply Hyes. eexists. repeat split.
  - intros Heq. destruct (Hno Heq) as (body & Hbody & H1 & _).
    injection Hbody as <-. discriminate.
Defined.

(** X17. The quiz endpoint accepts exactly the bodies whose [quizId] and
    [answer] are both truthy, answers 500 exactly when the body is [null]
    (or [undefined]), and answers 400 with its fixed message to everything
    else: other JSON values that are not objects, and a body that is not
    JSON. *)
Theorem quiz_post_replies (json : outcome value) :
  (QuizRoute.POST json = accepted
   <-> exists body,
         json = Ok body
         /\ truthy (get body "quizId") = true
         /\ truthy (get body "answer") = true)
  /\ (QuizRoute.POST json = internal_error
      <-> json = Ok VNull \/ json = Ok VUndefined)
  /\ (QuizRoute.POST json = accepted
      \/ QuizRoute.POST json = internal_error
      \/ QuizRoute.POST json = QuizRoute.missing_fields).
Proof.
  unfold QuizRoute.POST.
  destruct json as [body|e]; simpl.
  - destruct body as [| |b|n|text|items|entries]; simpl;
      try (split;
           [split; [discriminate
                   |intros (body' & Heq & H1 & H2); injection Heq as <-;
                    simpl in H1; discriminate]|];
           split; [split; [discriminate|intros [H|H]; discriminate]|auto];
           fail).
    + split; [split; [discriminate|intros (body' & Heq & H1 & H2)]|].
      * injection Heq as <-. simpl in H1. discriminate.
      * split; [split; auto|auto].
    + split; [split; [discriminate|intros (body' & Heq & H1 & H2)]|].
      * injection Heq as <-. simpl in H1. discriminate.
      * split; [split; auto|auto].
    + destruct (truthy (default VUndefined (lookup_entry "quizId" entries))) eqn:Hq;
        destruct (truthy (default VUndefined (lookup_entry "answer" entries))) eqn:Ha;
        simpl;
        (split;
         [split;
          [ try discriminate; intros _; exists (VObj entries); auto
          | intros (body' & Heq & H1 & H2); injection Heq as <-;
            simpl in H1, H2; try reflexivity; congruence ]|]);
        (split; [split; [discriminate|intros [H|H]; discriminate]|auto]).
  - split; [split; [discriminate|intros (body & Heq & _); discriminate]|].
    split; [split; [discriminate|intros [H|H]; discriminate]|auto].
Qed.

Lemma quiz_post_replies_witness :
  QuizRoute.POST (Ok (VObj [("quizId", VStr "Q1"); ("answer", VStr "B")])) = accepted
  /\ QuizRoute.POST (Ok VNull) = internal_error
  /\ QuizRoute.POST (Ok (VArr [VStr "Q1"; VStr "B"])) = QuizRoute.missing_fields.
Proof.
  destruct (quiz_post_replies (Ok (VObj [("quizId", VStr "Q1"); ("answer", VStr "B")])))
    as ([_ Hyes] & _ & _).
  destruct (quiz_post_replies (Ok VNull)) as (_ & [_ Hnull] & _).
  destruct (quiz_post_replies (Ok (VArr [VStr "Q1"; VStr "B"])))
    as ([Hacc _] & [Herr _] & [H|[H|H]]).
  - split; [apply Hyes; eexists; repeat split|]. split; [apply Hnull; now left|].
    destruct (Hacc H) as (body & Hbody & H1 & _). injection Hbody as <-. discriminate.
  - split; [apply Hyes; eexists; repeat split|]. split; [apply Hnull; now left|].
    destruct (Herr H) as [Hbad|Hbad]; discriminate.
  - split; [apply Hyes; eexists; repeat split|]. split; [apply Hnull; now left|exact H].
Defined.

(** X20. What the panel posts for a quiz is always a JSON object, so the
    quiz endpoint, reading that body back, never answers it with 500: it
    accepts it when the [quizId] and [answer] that the dispatch extracted
    are both truthy and answers 400 otherwise. *)
Theorem quiz_request_reply (act : action) (widgetItem : value) :
  let quizId := action_quizId act widgetItem in
  let answer := action_answer act widgetItem in
  QuizRoute.POST (Ok (body (quiz_request quizId answer)))
  = if truthy quizId && truthy answer then accepted else QuizRoute.missing_fields.
Proof.
  intros quizId answer. unfold QuizRoute.POST, quiz_request. simpl.
  destruct (truthy quizId), (truthy answer); reflexivity.
Qed.

Lemma truthy_pick (payload : list (string * value)) (k : string) :
  truthy (pick payload k) = truthy (get (VObj payload) k).
Proof.
  unfold pick. simpl. destruct (lookup_entry k payload); reflexivity.
Qed.

(** X21. The survey endpoint, reading back the normalized record that the
    panel posts, accepts it exactly when the payload of the action has
    truthy [q1], [q2] and [q3], and answers 400 otherwise; the flags of q4
    and the other fields play no part. *)
Theorem survey_request_reply (payload : list (string * value)) :
  SurveyRoute.POST (Ok (survey_json (survey_of payload)))
  = if truthy (get (VObj payload) "q1") && truthy (get (VObj payload) "q2")
       && truthy (get (VObj payload) "q3")
    then accepted else SurveyRoute.missing_required.
Proof.
  rewrite <- !truthy_pick.
  unfold SurveyRoute.POST, survey_json, survey_of.
  generalize (pick payload "q1"), (pick payload "q2"), (pick payload "q3"),
    (pick payload "q5"), (pick payload "q6"), (pick payload "q7"), (pick payload "q8"),
    (allergies payload).
  intros v1 v2 v3 v5 v6 v7 v8 options. simpl.
  destruct (truthy v1), (truthy v2), (truthy v3); reflexivity.
Qed.

End RouteFacts.

(** ** Formatting *)

Module FormatFacts.

Import Panel Render Settle PanelFacts.

Lemma title_char_idempotent (in_word : bool) (c : ascii) :
  SurveySpec.title_char in_word (SurveySpec.title_char in_word c)
  = SurveySpec.title_char in_word c.
Proof. destruct in_word, c as [[] [] [] [] [] [] [] []]; reflexivity. Qed.

Lemma is_alnum_title_char (in_word : bool) (c : ascii) :
  SurveySpec.is_alnum (SurveySpec.title_char in_word c) = SurveySpec.is_alnum c.
Proof. destruct in_word, c as [[] [] [] [] [] [] [] []]; reflexivity. Qed.

Lemma title_case_from_idempotent (in_word : bool) (s : string) :
  SurveySpec.title_case_from in_word (SurveySpec.title_case_from in_word s)
  = SurveySpec.title_case_from in_word s.
Proof.
  revert in_word. induction s as [|c s IH]; intros in_word; [reflexivity|].
  cbn [SurveySpec.title_case_from].
  rewrite title_char_idempotent, is_alnum_title_char, IH. reflexivity.
Qed.

Lemma title_case_from_length (in_word : bool) (s : string) :
  String.length (SurveySpec.title_case_from in_word s) = String.length s.
Proof.
  revert in_word. induction s as [|c s IH]; intros in_word; [reflexivity|].
  cbn [SurveySpec.title_case_from String.length]. now rewrite IH.
Qed.

(** X19. [pretty] is idempotent and keeps the length: formatting a
    formatted string changes nothing, and every character is replaced by
    exactly one character. *)
Theorem pretty_idempotent (s : string) :
  pretty (VStr (pretty (VStr s))) = pretty (VStr s)
  /\ String.length (pretty (VStr s)) = String.length s.
Proof.
  rewrite !SurveyFacts.pretty_string. unfold SurveySpec.title_case.
  split; [apply title_case_from_idempotent|apply title_case_from_length].
Qed.

Lemma collapse_no_space (s : string) :
  no_space s -> collapse_from 0 false s = s.
Proof.
  induction s as [|c s IH]; [reflexivity|].
  intros [Hwidth Hrest]. cbn [collapse_from]. rewrite Hwidth.
  now rewrite (IH Hrest).
Qed.

Lemma trimStart_no_space (s : string) : no_space s -> trimStart s = s.
Proof.
  destruct s as [|c s]; [reflexivity|].
  intros [Hwidth _]. unfold trimStart. cbn [trimStart_from]. now rewrite Hwidth.
Qed.

Lemma trimEnd_no_space (s : string) : no_space s -> trimEnd s = s.
Proof.
  induction s as [|c s IH]; [reflexivity|].
  intros Hs. cbn [trimEnd]. rewrite (trimStart_no_space _ Hs).
  destruct Hs as [_ Hrest]. cbn [String.eqb]. now rewrite (IH Hrest).
Qed.

(** X22. A fact text in which no white space character occurs reaches the
    save callback unchanged. *)
Theorem fact_text_without_space (w : world) (st : state) (p : list (string * value)) :
  no_space (fact_text p) ->
  fact_id p <> "" ->
  fact_id p ∉ processedFacts st ->
  trace (after (onClientTool (mkInvocation "record_fact" p)) w st)
  = (trace st ++ [WidgetAction (mkFactAction (fact_id p) (fact_text p))])%list.
Proof.
  intros Htext Hid Hfresh. unfold after. rewrite record_fact_run.
  apply String.eqb_neq in Hid. rewrite Hid.
  rewrite bool_decide_false by exact Hfresh. simpl.
  unfold trim, collapse_spaces.
  rewrite (collapse_no_space _ Htext), (trimStart_no_space _ Htext),
    (trimEnd_no_space _ Htext).
  reflexivity.
Qed.

Lemma fact_text_without_space_witness :
  trace (after (onClientTool (Examples.record_fact "f9" "vegan")) Examples.unconfigured
           (initial Examples.unconfigured))
  = [WidgetAction (mkFactAction "f9" "vegan")].
Proof.
  apply (fact_text_without_space Examples.unconfigured (initial Examples.unconfigured)
           [("fact_id", VStr "f9"); ("fact_text", VStr "vegan")]).
  - repeat split.
  - discriminate.
  - apply not_elem_of_empty.
Defined.

End FormatFacts.

(** ** The script slot *)

Module ScriptFacts.

Import Panel Render Settle PanelFacts.

Lemma script_built_setErrorState (updates : ErrorUpdates) :
  set_script updates = None \/ set_script updates = Some None
  \/ (exists detail, set_script updates = Some (Some ("Error: " ++ detail))) ->
  preserves script_slot_built (setErrorState updates).
Proof.
  intros Hu. apply preserves_modify. intros st Hst.
  unfold script_slot_built. simpl.
  destruct Hu as [-> | [-> | [detail ->]]]; simpl; [exact Hst|now left|right; eauto].
Qed.

Ltac script_leaf :=
  first
    [ apply script_built_setErrorState; simpl; eauto
    | apply preserves_modify; intros ? Hkept; first [exact Hkept | now left] ].

Lemma script_built_handler (ev : event) : preserves script_slot_built (handler ev).
Proof.
  destruct ev; simpl; unfold ignore, onAction, onClientTool;
    preserve; script_leaf.
Qed.

(** X23. In every reachable state the script slot is empty or holds a
    message that starts with [Error: ], so a script error is never empty:
    whenever one is set, it is the blocking error and the widget is
    hidden. *)
Theorem script_error_hides (st : state) :
  reachable st ->
  (script (errors st) = None
   \/ exists detail, script (errors st) = Some ("Error: " ++ detail))
  /\ (script (errors st) <> None ->
      blockingError (errors st) = script (errors st) /\ widget_hidden st = true).
Proof.
  intros Hreach.
  assert (script_slot_built st) as Hbuilt.
  { induction Hreach as [w|w ev st Hreach IH]; [now left|].
    now apply script_built_handler. }
  split; [exact Hbuilt|].
  intros Hset. unfold widget_hidden, blockingError.
  destruct Hbuilt as [Hnone|[detail Hsome]]; [contradiction|].
  rewrite Hsome. split; reflexivity.
Qed.

Lemma script_error_hides_witness :
  let w := Examples.session_world (VObj [("client_secret", VStr "ek_123")]) in
  let st := after (handler (GetClientSecret VNull)) w
              (after (handler (ScriptError (VNum 404))) w (initial w)) in
  blockingError (errors st) = Some "Error: 404" /\ widget_hidden st = true.
Proof.
  destruct (script_error_hides
              (after (handler (GetClientSecret VNull))
                 (Examples.session_world (VObj [("client_secret", VStr "ek_123")]))
                 (after (handler (ScriptError (VNum 404)))
                    (Examples.session_world (VObj [("client_secret", VStr "ek_123")]))
                    (initial (Examples.session_world
                                (VObj [("client_secret", VStr "ek_123")]))))))
    as [_ Hhides].
  - repeat constructor.
  - destruct Hhides as [Hb Hh]; [discriminate|].
    split; [exact Hb|exact Hh].
Defined.

End ScriptFacts.
